(** * launchPad.ino: the control loop of the compressed-air rocket launch pad

    A shallow embedding of the sketch [launchPad.ino] and the properties of
    its control loop: fail-safe on loss of communication, the debounced
    single-shot firing sequence, the ordering of compressor and valve
    outputs, the heartbeat and the telemetry cadence.

    The sketch is a single-threaded loop over a handful of global variables
    and the AVR output register PORTD.  It is embedded as a state-and-trace
    monad: every function of the sketch is a computation over the record
    [Sketch], and every action on the outside world (a write to PORTD, a
    call of [delay], an [analogRead], a radio packet) is appended to a
    trace, so that claims on the order of actions inside one pass of the
    loop can be stated. *)

From Stdlib Require Import ZArith Bool List Lia.
Import ListNotations.
Local Open Scope Z_scope.

(* ===================================================================== *)
(** * Machine integers and registers of the ATmega *)
(* ===================================================================== *)

(** [unsigned long] is 32 bits wide on the AVR: the type of [millis()] and
    of the constant [1UL]. *)
Definition to_ulong (z : Z) : Z := z mod 2 ^ 32.

(** [long] is 32 bits wide, two's complement; avr-gcc converts an
    [unsigned long] to [long] by wrapping. *)
Definition to_long (z : Z) : Z := (z + 2 ^ 31) mod 2 ^ 32 - 2 ^ 31.

(** An I/O register such as PORTD is a [volatile uint8_t]. *)
Definition to_uint8 (z : Z) : Z := z mod 2 ^ 8.

(** Arduino.h: [#define bitSet(value, bit) ((value) |= (1UL << (bit)))]. *)
Definition bitSet (value bit : Z) : Z :=
  to_uint8 (Z.lor value (to_ulong (Z.shiftl 1 bit))).

(** Arduino.h: [#define bitClear(value, bit) ((value) &= ~(1UL << (bit)))]. *)
Definition bitClear (value bit : Z) : Z :=
  to_uint8 (Z.land value (to_ulong (Z.lnot (to_ulong (Z.shiftl 1 bit))))).

(** The level of one line of a port. *)
Definition bitRead (value bit : Z) : bool := Z.testbit value bit.

(** Pins of the sketch, all on port D (lines 50-68 of the source). *)
Definition _SafetyLedBit_ : Z := 2.
Definition _ErrorLedBit_ : Z := 3.
Definition _Pad1LaunchBit_ : Z := 6.
Definition _Pad2LaunchBit_ : Z := 5.
Definition _CompressorBit_ : Z := 4.

(** Analog inputs of the two chamber pressure sensors (lines 76-77). *)
Definition _Pressure1Analog_ : Z := 1.
Definition _Pressure2Analog_ : Z := 2.

(** Timing constants (lines 88-89). *)
Definition _pulse_halfwidth_ : Z := 100.
Definition _zigbee_timeout_ : Z := 1000.

(* ===================================================================== *)
(** * The LaunchDataPacket collaborator *)
(* ===================================================================== *)

(** The class [LaunchDataPacket] comes from the library header
    [LaunchDataPacket.h], which is not part of the sketch.  The sketch uses
    it through the methods below only, so the sketch is embedded over any
    implementation of them.  [P] is the state of the object [data]; [Rx] is
    whatever the radio delivers to one call of [readDataFromXbee].  The
    object has no access to the sketch's globals or to PORTD: its methods
    act on [P] alone.  [didMasterTimeout] gets the reading of the clock
    at the time it is called. *)
Class LaunchDataPacket (P Rx : Type) : Type := {
  setPressure1 : Z -> P -> P;
  setPressure2 : Z -> P -> P;
  isPad1Selected : P -> bool;
  isPad2Selected : P -> bool;
  isMasterLaunchSet : P -> bool;
  isCompressorOn : P -> bool;
  didMasterTimeout : Z -> P -> bool;
  compressorOff : P -> P;
  masterArmIsOff : P -> P;
  masterLaunchClear : P -> P;
  readDataFromXbee : Rx -> P -> P;
  sendDataToMaster : P -> P;
  newLaunchDataPacket : P
}.

(** What [setPressure1] and [setPressure2] store is what the packet
    carries: the source says of [readPressure] that the value "is stored
    for transmission via Zigbee". *)
Class StoresPressure (P Rx : Type) `{LaunchDataPacket P Rx} : Type := {
  getPressure1 : P -> Z;
  getPressure2 : P -> Z;
  getPressure1_set1 : forall v d, getPressure1 (setPressure1 v d) = v;
  getPressure1_set2 : forall v d, getPressure1 (setPressure2 v d) = getPressure1 d;
  getPressure2_set2 : forall v d, getPressure2 (setPressure2 v d) = v
}.

(* ===================================================================== *)
(** * State, environment and trace *)
(* ===================================================================== *)

(** The actions of the sketch on the outside world, in program order. *)
Inductive Event (P : Type) : Type :=
| EvPort (before after : Z)        (* a write to PORTD *)
| EvDelay (ms : Z)                 (* delay(ms) *)
| EvAnalogRead (pin value : Z)     (* analogRead(pin) returned value *)
| EvReadXbee                       (* data.readDataFromXbee() *)
| EvSendToMaster (d : P).          (* data.sendDataToMaster(), packet as sent *)

Arguments EvPort {P} before after.
Arguments EvDelay {P} ms.
Arguments EvAnalogRead {P} pin value.
Arguments EvReadXbee {P}.
Arguments EvSendToMaster {P} d.

(** The globals of the sketch (lines 95-130) and the output register. *)
Record Sketch (P : Type) : Type := mkSketch {
  PORTD : Z;
  pulse : bool;
  timeSinceLastPulse : Z;
  timeSinceLastMasterSignal : Z;
  wasRocketLaunched : bool;
  data : P
}.

Arguments mkSketch {P}.
Arguments PORTD {P}.
Arguments pulse {P}.
Arguments timeSinceLastPulse {P}.
Arguments timeSinceLastMasterSignal {P}.
Arguments wasRocketLaunched {P}.
Arguments data {P}.

(** What one pass of [loop] reads from the outside world, by call site. *)
Record Env (Rx : Type) : Type := mkEnv {
  analog_tick : Z -> Z;     (* analogRead(pin) in readPressure, line 207-208 *)
  analog_fire : Z -> Z;     (* analogRead(pin) in launchRocket, line 230-231 *)
  millis_check : Z;         (* millis() at line 247 *)
  millis_stamp : Z;         (* millis() at line 249 *)
  millis_watchdog : Z;      (* the clock as data.didMasterTimeout() reads it *)
  radio : Rx                (* what data.readDataFromXbee() finds *)
}.

Arguments mkEnv {Rx}.
Arguments analog_tick {Rx}.
Arguments analog_fire {Rx}.
Arguments millis_check {Rx}.
Arguments millis_stamp {Rx}.
Arguments millis_watchdog {Rx}.
Arguments radio {Rx}.

(** Field updates. *)
Definition set_PORTD {P} (v : Z) (s : Sketch P) : Sketch P :=
  mkSketch v (pulse s) (timeSinceLastPulse s) (timeSinceLastMasterSignal s)
           (wasRocketLaunched s) (data s).
Definition set_pulse {P} (b : bool) (s : Sketch P) : Sketch P :=
  mkSketch (PORTD s) b (timeSinceLastPulse s) (timeSinceLastMasterSignal s)
           (wasRocketLaunched s) (data s).
Definition set_timeSinceLastPulse {P} (t : Z) (s : Sketch P) : Sketch P :=
  mkSketch (PORTD s) (pulse s) t (timeSinceLastMasterSignal s)
           (wasRocketLaunched s) (data s).
Definition set_wasRocketLaunched {P} (b : bool) (s : Sketch P) : Sketch P :=
  mkSketch (PORTD s) (pulse s) (timeSinceLastPulse s)
           (timeSinceLastMasterSignal s) b (data s).
Definition set_data {P} (d : P) (s : Sketch P) : Sketch P :=
  mkSketch (PORTD s) (pulse s) (timeSinceLastPulse s)
           (timeSinceLastMasterSignal s) (wasRocketLaunched s) d.

(** ** The monad: state of the sketch and trace of its actions *)

Definition M (P A : Type) : Type := Sketch P -> A * Sketch P * list (Event P).

Definition ret {P A} (a : A) : M P A := fun s => (a, s, []).

Definition bind {P A B} (c : M P A) (k : A -> M P B) : M P B :=
  fun s =>
    let '(a, s1, t1) := c s in
    let '(b, s2, t2) := k a s1 in
    (b, s2, t1 ++ t2).

Declare Scope sketch_scope.
Delimit Scope sketch_scope with sketch.
Notation "x <- c ;; k" := (bind c (fun x => k))
  (at level 61, c at next level, right associativity) : sketch_scope.
Notation "c ;; k" := (bind c (fun _ => k))
  (at level 61, right associativity) : sketch_scope.
Local Open Scope sketch_scope.

Definition get {P} : M P (Sketch P) := fun s => (s, s, []).
Definition modify {P} (f : Sketch P -> Sketch P) : M P unit :=
  fun s => (tt, f s, []).
Definition emit {P} (ev : Event P) : M P unit := fun s => (tt, s, [ev]).

(** The state and the trace a computation ends with. *)
Definition exec {P A} (c : M P A) (s : Sketch P) : Sketch P := snd (fst (c s)).
Definition actions {P A} (c : M P A) (s : Sketch P) : list (Event P) := snd (c s).

(** ** Primitives of the Arduino core *)

(** [bitSet(PORTD, bit)]: read-modify-write of the register. *)
Definition bitSet_PORTD {P} (bit : Z) : M P unit :=
  fun s => let v := bitSet (PORTD s) bit in
           (tt, set_PORTD v s, [EvPort (PORTD s) v]).

(** [bitClear(PORTD, bit)]. *)
Definition bitClear_PORTD {P} (bit : Z) : M P unit :=
  fun s => let v := bitClear (PORTD s) bit in
           (tt, set_PORTD v s, [EvPort (PORTD s) v]).

Definition delay {P} (ms : Z) : M P unit := emit (EvDelay ms).

Definition analogRead {P} (adc : Z -> Z) (pin : Z) : M P Z :=
  fun s => (adc pin, s, [EvAnalogRead pin (adc pin)]).

(** [millis()] returns an [unsigned long]. *)
Definition millis {P} (clock : Z) : M P Z := ret (to_ulong clock).

(* ===================================================================== *)
(** * The sketch *)
(* ===================================================================== *)

Section TheSketch.

Context {P Rx : Type} `{LaunchDataPacket P Rx}.

Definition on_data (f : P -> P) : M P unit :=
  modify (fun s => set_data (f (data s)) s).

Definition ask_data {A} (f : P -> A) : M P A :=
  fun s => (f (data s), s, []).

(** Lines 140-146. *)
Definition setSafetyLedState (state : bool) : M P unit :=
  if state then bitSet_PORTD _SafetyLedBit_
  else bitClear_PORTD _SafetyLedBit_.

(** Lines 153-159. *)
Definition setErrorLedState (state : bool) : M P unit :=
  if state then bitSet_PORTD _ErrorLedBit_
  else bitClear_PORTD _ErrorLedBit_.

(** Lines 166-168. *)
Definition readZigbee (rx : Rx) : M P unit :=
  emit EvReadXbee ;;
  on_data (readDataFromXbee rx).

(** Lines 175-177. *)
Definition writeZigbeeMaster : M P unit :=
  s <- get ;;
  emit (EvSendToMaster (data s)) ;;
  on_data sendDataToMaster.

(** Lines 182-188. *)
Definition blinkErrorLed : M P unit :=
  s <- get ;;
  if pulse s then bitSet_PORTD _ErrorLedBit_
  else bitClear_PORTD _ErrorLedBit_.

(** Lines 193-199. *)
Definition blinkSafetyLed : M P unit :=
  s <- get ;;
  if pulse s then bitSet_PORTD _SafetyLedBit_
  else bitClear_PORTD _SafetyLedBit_.

(** Lines 206-209. *)
Definition readPressure (adc : Z -> Z) : M P unit :=
  v1 <- analogRead adc _Pressure1Analog_ ;;
  on_data (setPressure1 v1) ;;
  v2 <- analogRead adc _Pressure2Analog_ ;;
  on_data (setPressure2 v2).

(** Lines 214-232. *)
Definition launchRocket (adc : Z -> Z) : M P unit :=
  s <- get ;;
  if wasRocketLaunched s then ret tt
  else
    modify (set_wasRocketLaunched true) ;;
    bitClear_PORTD _CompressorBit_ ;;
    sel1 <- ask_data isPad1Selected ;;
    (if sel1 then bitSet_PORTD _Pad1LaunchBit_ else ret tt) ;;
    sel2 <- ask_data isPad2Selected ;;
    (if sel2 then bitSet_PORTD _Pad2LaunchBit_ else ret tt) ;;
    delay 100 ;;
    bitClear_PORTD _Pad1LaunchBit_ ;;
    bitClear_PORTD _Pad2LaunchBit_ ;;
    v1 <- analogRead adc _Pressure1Analog_ ;;
    on_data (setPressure1 v1) ;;
    v2 <- analogRead adc _Pressure2Analog_ ;;
    on_data (setPressure2 v2).

(** [long pulseTime = millis() - timeSinceLastPulse;] (line 247): the
    [long] operand is converted to [unsigned long], the difference is taken
    modulo 2^32 and converted back to [long]. *)
Definition pulseTime_of (now last : Z) : Z :=
  to_long (to_ulong (now - to_ulong last)).

(** Lines 240-277. *)
Definition updateData (e : Env Rx) : M P unit :=
  readPressure (analog_tick e) ;;
  now <- millis (millis_check e) ;;
  s <- get ;;
  let pulseTime := pulseTime_of now (timeSinceLastPulse s) in
  (if _pulse_halfwidth_ <? pulseTime then
     now' <- millis (millis_stamp e) ;;
     modify (set_timeSinceLastPulse (to_long now')) ;;
     modify (fun s => set_pulse (xorb (pulse s) true) s) ;;
     s <- get ;;
     if pulse s then writeZigbeeMaster else ret tt
   else ret tt) ;;
  readZigbee (radio e) ;;
  timedOut <- ask_data (didMasterTimeout (millis_watchdog e)) ;;
  if timedOut then
    on_data compressorOff ;;
    on_data masterArmIsOff ;;
    on_data masterLaunchClear ;;
    blinkErrorLed
  else
    launch <- ask_data isMasterLaunchSet ;;
    if launch then launchRocket (analog_fire e)
    else
      modify (set_wasRocketLaunched false) ;;
      comp <- ask_data isCompressorOn ;;
      if comp then bitSet_PORTD _CompressorBit_
      else bitClear_PORTD _CompressorBit_.

(** The globals as their initialisers leave them (lines 95-130); PORTD is
    all zero after a reset of the microcontroller. *)
Definition power_on : Sketch P :=
  mkSketch 0 false 0 0 false newLaunchDataPacket.

(** Lines 285-304: [pinMode], [Serial.begin] and [xbee.setSerial] configure
    pin directions and the serial port and leave PORTD and the globals
    alone; [pulse] is set to false. *)
Definition setup : M P unit :=
  modify (set_pulse false).

(** Lines 311-313: one pass of [loop]. *)
Definition loop (e : Env Rx) : M P unit := updateData e.

(** The state after [setup] and the passes of [loop] that the environments
    [es] drive, in order. *)
Fixpoint run (es : list (Env Rx)) (s : Sketch P) : Sketch P :=
  match es with
  | [] => s
  | e :: es' => run es' (exec (loop e) s)
  end.

(** The same, with the trace of each pass. *)
Fixpoint run_trace (es : list (Env Rx)) (s : Sketch P) : list (list (Event P)) :=
  match es with
  | [] => []
  | e :: es' => actions (loop e) s :: run_trace es' (exec (loop e) s)
  end.

Definition boot : Sketch P := exec setup power_on.

(** The states the sketch can be in between two passes of [loop]. *)
Definition reachable (s : Sketch P) : Prop :=
  exists es, s = run es boot.

End TheSketch.

(* ===================================================================== *)
(** * A packet after the specification *)
(* ===================================================================== *)

Module SpecPacket.

(** The decoded fields of one inbound message. *)
Record Command : Type := mkCommand {
  cmd_armed : bool;
  cmd_launch : bool;
  cmd_compressor : bool;
  cmd_pad1 : bool;
  cmd_pad2 : bool
}.

(** Modelled from the spec: the state of the LaunchDataPacket object, whose
    class is declared in LaunchDataPacket.h, outside the sketch.  It holds
    the CommandSnapshot of section 3 (master-armed and launch-request
    flags, compressor request, pad selection), the PressureReading and the
    time of the last good receipt. *)
Record Packet : Type := mkPacket {
  pressure1 : Z;
  pressure2 : Z;
  masterArmed : bool;
  masterLaunchRequested : bool;
  compressorRequested : bool;
  pad1Selected : bool;
  pad2Selected : bool;
  lastGoodReceiveTime : Z
}.

(** Modelled from the spec: one poll of the radio finds nothing, or one
    structurally valid message and the time of its receipt (section 6,
    pollInbound). *)
Definition Inbound : Type := option (Z * Command).

(** Modelled from the spec: section 4.1, the watchdog is true iff
    [now - lastGoodReceiveTime > timeoutWindow]. *)
Definition isTimedOut (now lastGood timeoutWindow : Z) : bool :=
  timeoutWindow <? now - lastGood.

(** Modelled from the spec: a valid message replaces the command snapshot
    and the time of the last good receipt (section 6); the pressures are
    the pad's own and stay. *)
Definition pollInbound (rx : Inbound) (d : Packet) : Packet :=
  match rx with
  | None => d
  | Some (t, c) =>
      mkPacket (pressure1 d) (pressure2 d) (cmd_armed c) (cmd_launch c)
               (cmd_compressor c) (cmd_pad1 c) (cmd_pad2 c) t
  end.

(** Modelled from the spec: the methods of LaunchDataPacket that the
    sketch calls, on the fields of section 3; the three clearing methods
    clear the flag they are named after (section 4.3, step 1). *)
#[global] Instance packet : LaunchDataPacket Packet Inbound := {
  setPressure1 v d :=
    mkPacket v (pressure2 d) (masterArmed d) (masterLaunchRequested d)
             (compressorRequested d) (pad1Selected d) (pad2Selected d)
             (lastGoodReceiveTime d);
  setPressure2 v d :=
    mkPacket (pressure1 d) v (masterArmed d) (masterLaunchRequested d)
             (compressorRequested d) (pad1Selected d) (pad2Selected d)
             (lastGoodReceiveTime d);
  isPad1Selected := pad1Selected;
  isPad2Selected := pad2Selected;
  isMasterLaunchSet := masterLaunchRequested;
  isCompressorOn := compressorRequested;
  didMasterTimeout now d :=
    isTimedOut now (lastGoodReceiveTime d) _zigbee_timeout_;
  compressorOff d :=
    mkPacket (pressure1 d) (pressure2 d) (masterArmed d)
             (masterLaunchRequested d) false (pad1Selected d) (pad2Selected d)
             (lastGoodReceiveTime d);
  masterArmIsOff d :=
    mkPacket (pressure1 d) (pressure2 d) false (masterLaunchRequested d)
             (compressorRequested d) (pad1Selected d) (pad2Selected d)
             (lastGoodReceiveTime d);
  masterLaunchClear d :=
    mkPacket (pressure1 d) (pressure2 d) (masterArmed d) false
             (compressorRequested d) (pad1Selected d) (pad2Selected d)
             (lastGoodReceiveTime d);
  readDataFromXbee := pollInbound;
  sendDataToMaster d := d;
  newLaunchDataPacket := mkPacket 0 0 false false false false false 0
}.

#[global] Instance packet_stores : StoresPressure Packet Inbound := {
  getPressure1 := pressure1;
  getPressure2 := pressure2;
  getPressure1_set1 := fun v d => eq_refl;
  getPressure1_set2 := fun v d => eq_refl;
  getPressure2_set2 := fun v d => eq_refl
}.

(** One pass of the loop at time [t] (all clock readings of the pass equal
    [t]), with pressure readings [p] and, after a firing, [q] on both
    chambers, and [rx] on the radio. *)
Definition pass (t p q : Z) (rx : Inbound) : Env Inbound :=
  mkEnv (fun _ => p) (fun _ => q) t t t rx.

(** A message decoded at time [t]. *)
Definition message (t : Z) (launch compressor pad1 pad2 : bool) : Inbound :=
  Some (t, mkCommand true launch compressor pad1 pad2).

End SpecPacket.

(* ===================================================================== *)
(** * Observations *)
(* ===================================================================== *)

Section Observations.

Context {P Rx : Type} `{LaunchDataPacket P Rx}.

(** Levels of the output lines. *)
Definition compressorOut (v : Z) : bool := bitRead v _CompressorBit_.
Definition pad1Valve (v : Z) : bool := bitRead v _Pad1LaunchBit_.
Definition pad2Valve (v : Z) : bool := bitRead v _Pad2LaunchBit_.
Definition errorLed (v : Z) : bool := bitRead v _ErrorLedBit_.
Definition safetyLed (v : Z) : bool := bitRead v _SafetyLedBit_.

(** The levels of PORTD that a trace goes through. *)
Fixpoint port_levels (tr : list (Event P)) : list Z :=
  match tr with
  | [] => []
  | EvPort _ after :: tr' => after :: port_levels tr'
  | _ :: tr' => port_levels tr'
  end.

(** The line [line] is driven from off to on by some write of the trace. *)
Definition opens (line : Z -> bool) (tr : list (Event P)) : Prop :=
  exists before after,
    In (EvPort before after) tr /\ line before = false /\ line after = true.

(** The line [line] is on after some write of the trace. *)
Definition on_during (line : Z -> bool) (tr : list (Event P)) : Prop :=
  exists v, In v (port_levels tr) /\ line v = true.

(** The blocking holds of a trace; [launchRocket] is the only caller of
    [delay], once per firing. *)
Definition is_hold (ev : Event P) : bool :=
  match ev with EvDelay _ => true | _ => false end.

Definition firings (tr : list (Event P)) : nat :=
  length (filter is_hold tr).

(** The telemetry packets of a trace. *)
Fixpoint telemetry (tr : list (Event P)) : list P :=
  match tr with
  | [] => []
  | EvSendToMaster d :: tr' => d :: telemetry tr'
  | _ :: tr' => telemetry tr'
  end.

(** ** The quantities one pass of the loop decides on *)

(** The packet once this pass has stored its two pressure samples. *)
Definition sampled (e : Env Rx) (s : Sketch P) : P :=
  setPressure2 (analog_tick e _Pressure2Analog_)
    (setPressure1 (analog_tick e _Pressure1Analog_) (data s)).

(** The elapsed time the heartbeat test of this pass compares. *)
Definition pulseTime (e : Env Rx) (s : Sketch P) : Z :=
  pulseTime_of (to_ulong (millis_check e)) (timeSinceLastPulse s).

(** The heartbeat phase flips in this pass. *)
Definition flips (e : Env Rx) (s : Sketch P) : bool :=
  _pulse_halfwidth_ <? pulseTime e s.

(** The heartbeat phase flips to on in this pass. *)
Definition rising (e : Env Rx) (s : Sketch P) : bool :=
  flips e s && negb (pulse s).

(** The command snapshot as the sequencer reads it: after the telemetry
    of this pass, if any, and after the poll of the radio. *)
Definition polled (e : Env Rx) (s : Sketch P) : P :=
  readDataFromXbee (radio e)
    (if rising e s then sendDataToMaster (sampled e s) else sampled e s).

(** The watchdog reports a timeout in this pass. *)
Definition timedOut (e : Env Rx) (s : Sketch P) : bool :=
  didMasterTimeout (millis_watchdog e) (polled e s).

(** The launch request is observed true (resp. false) in this pass: there
    is no timeout and [isMasterLaunchSet] answers true (resp. false). *)
Definition launchSeen (e : Env Rx) (s : Sketch P) : bool :=
  negb (timedOut e s) && isMasterLaunchSet (polled e s).

Definition launchSeenFalse (e : Env Rx) (s : Sketch P) : bool :=
  negb (timedOut e s) && negb (isMasterLaunchSet (polled e s)).

(** The firing sequence executes in this pass. *)
Definition fires (e : Env Rx) (s : Sketch P) : bool :=
  launchSeen e s && negb (wasRocketLaunched s).

(** The events of a pass up to the sequencer: the two samples, the
    telemetry on a rising edge, the poll of the radio. *)
Definition prelude (e : Env Rx) (s : Sketch P) : list (Event P) :=
  [EvAnalogRead _Pressure1Analog_ (analog_tick e _Pressure1Analog_);
   EvAnalogRead _Pressure2Analog_ (analog_tick e _Pressure2Analog_)]
  ++ (if rising e s then [EvSendToMaster (sampled e s)] else [])
  ++ [EvReadXbee].

(** PORTD along the firing sequence. *)
Definition port_safe (v : Z) : Z := bitClear v _CompressorBit_.
Definition port_pad1 (sel1 : bool) (v : Z) : Z :=
  if sel1 then bitSet (port_safe v) _Pad1LaunchBit_ else port_safe v.
Definition port_pad2 (sel1 sel2 : bool) (v : Z) : Z :=
  if sel2 then bitSet (port_pad1 sel1 v) _Pad2LaunchBit_ else port_pad1 sel1 v.
Definition port_closed1 (sel1 sel2 : bool) (v : Z) : Z :=
  bitClear (port_pad2 sel1 sel2 v) _Pad1LaunchBit_.
Definition port_closed (sel1 sel2 : bool) (v : Z) : Z :=
  bitClear (port_closed1 sel1 sel2 v) _Pad2LaunchBit_.

(** The events of the firing sequence from PORTD at [v], with the pad
    selection [sel1], [sel2] and the pressures [q1], [q2] read after it. *)
Definition firing_events (sel1 sel2 : bool) (v q1 q2 : Z) : list (Event P) :=
  [EvPort v (port_safe v)]
  ++ (if sel1 then [EvPort (port_safe v) (port_pad1 sel1 v)] else [])
  ++ (if sel2 then [EvPort (port_pad1 sel1 v) (port_pad2 sel1 sel2 v)] else [])
  ++ [EvDelay 100;
      EvPort (port_pad2 sel1 sel2 v) (port_closed1 sel1 sel2 v);
      EvPort (port_closed1 sel1 sel2 v) (port_closed sel1 sel2 v);
      EvAnalogRead _Pressure1Analog_ q1;
      EvAnalogRead _Pressure2Analog_ q2].

(** The heartbeat phase and the time stamp of its last flip after a pass. *)
Definition pulse_after (e : Env Rx) (s : Sketch P) : bool :=
  if flips e s then xorb (pulse s) true else pulse s.

Definition stamp_after (e : Env Rx) (s : Sketch P) : Z :=
  if flips e s then to_long (to_ulong (millis_stamp e))
  else timeSinceLastPulse s.

(** The state a pass ends in, given what its sequencer branch leaves in
    PORTD, in the launch latch and in the packet. *)
Definition after_pass (e : Env Rx) (s : Sketch P)
    (port : Z) (latch : bool) (d : P) : Sketch P :=
  mkSketch port (pulse_after e s) (stamp_after e s)
           (timeSinceLastMasterSignal s) latch d.

(** PORTD after [blinkErrorLed] at phase [ph]. *)
Definition port_error (ph : bool) (v : Z) : Z :=
  if ph then bitSet v _ErrorLedBit_ else bitClear v _ErrorLedBit_.

(** PORTD after the compressor line is set to the request [req]. *)
Definition port_compressor (req : bool) (v : Z) : Z :=
  if req then bitSet v _CompressorBit_ else bitClear v _CompressorBit_.

(** The packet after the three clearing calls of the timeout branch. *)
Definition cleared (d : P) : P :=
  masterLaunchClear (masterArmIsOff (compressorOff d)).

(** The packet after the samples that follow a firing. *)
Definition resampled (e : Env Rx) (d : P) : P :=
  setPressure2 (analog_fire e _Pressure2Analog_)
    (setPressure1 (analog_fire e _Pressure1Analog_) d).

(** Both valve lines are off. *)
Definition valves_closed (s : Sketch P) : Prop :=
  pad1Valve (PORTD s) = false /\ pad2Valve (PORTD s) = false.

(** ** Several passes *)

(** All the actions of the passes that [es] drives from [s], in order. *)
Definition run_actions (es : list (Env Rx)) (s : Sketch P) : list (Event P) :=
  concat (run_trace es s).



(** The launch request is observed false on no pass of [es] from [s]. *)
Fixpoint none_seen_false (es : list (Env Rx)) (s : Sketch P) : bool :=
  match es with
  | [] => true
  | e :: es' =>
      negb (launchSeenFalse e s) && none_seen_false es' (exec (loop e) s)
  end.

(** ** The sentences of the specification that the sketch departs from *)

(** Pad selection, as worded: in a firing the valve of pad 1 opens iff
    pad 1 was selected when the pass began. *)
Definition pad_selection_as_stated : Prop :=
  forall (s : Sketch P) (e : Env Rx),
    reachable s -> fires e s = true ->
    (opens pad1Valve (actions (loop e) s) <-> isPad1Selected (data s) = true).

(** LED, as worded: after a pass with a timeout the error LED shows the
    phase, after a pass without one the safety LED does. *)
Definition led_as_stated : Prop :=
  forall (s : Sketch P) (e : Env Rx),
    reachable s ->
    let s' := exec (loop e) s in
    (timedOut e s = true -> errorLed (PORTD s') = pulse s') /\
    (timedOut e s = false -> safetyLed (PORTD s') = pulse s').

(** Heartbeat, as worded: the phase flips iff at least the half-period
    has elapsed since the last flip. *)
Definition heartbeat_as_stated : Prop :=
  forall (s : Sketch P) (e : Env Rx),
    0 <= millis_check e - timeSinceLastPulse s < 2 ^ 31 ->
    (pulse (exec (loop e) s) = negb (pulse s) <->
     _pulse_halfwidth_ <= millis_check e - timeSinceLastPulse s).

End Observations.

(* ===================================================================== *)
(** * Scenarios on the packet after the specification *)
(* ===================================================================== *)

Module Scenario.

Import SpecPacket.

Definition State : Type := Sketch Packet.

(** At time 0 the master asks for the compressor and for no launch. *)
Definition compressor_request : Env Inbound :=
  pass 0 512 0 (message 0 false true false false).

(** At time 2000 nothing has come in since: 1000 time-units past the
    timeout window. *)
Definition silence : Env Inbound := pass 2000 512 0 None.

(** At time [t] the master asks for a launch from pad 1. *)
Definition launch_pad1 (t : Z) : Env Inbound :=
  pass t 512 40 (message t true false true false).

(** At time [t] the master asks for a launch from both pads. *)
Definition launch_both (t : Z) : Env Inbound :=
  pass t 512 40 (message t true false true true).

(** At time [t] the master asks for nothing. *)
Definition no_request (t : Z) : Env Inbound :=
  pass t 512 0 (message t false false false false).

(** At time [t] nothing comes in. *)
Definition nothing (t : Z) : Env Inbound := pass t 512 0 None.

(** The compressor runs on the master's request. *)
Definition compressing : State := run [compressor_request] boot.

End Scenario.

(* ===================================================================== *)
(** * Bits of a port *)
(* ===================================================================== *)

Lemma bitRead_to_uint8 (v j : Z) :
  0 <= j < 8 -> bitRead (to_uint8 v) j = bitRead v j.
Proof.
  intros Hj. unfold bitRead, to_uint8.
  apply Z.mod_pow2_bits_low. lia.
Qed.

Lemma bitRead_mask (i j : Z) :
  0 <= i < 8 -> 0 <= j < 8 ->
  bitRead (to_ulong (Z.shiftl 1 i)) j = (i =? j).
Proof.
  intros Hi Hj. unfold bitRead, to_ulong.
  rewrite Z.mod_pow2_bits_low by lia.
  rewrite Z.shiftl_1_l. apply Z.pow2_bits_eqb. lia.
Qed.

Lemma bitRead_bitSet (v i j : Z) :
  0 <= i < 8 -> 0 <= j < 8 ->
  bitRead (bitSet v i) j = (i =? j) || bitRead v j.
Proof.
  intros Hi Hj. unfold bitSet. rewrite bitRead_to_uint8 by assumption.
  unfold bitRead at 1. rewrite Z.lor_spec.
  fold (bitRead v j). fold (bitRead (to_ulong (Z.shiftl 1 i)) j).
  rewrite bitRead_mask by assumption. apply orb_comm.
Qed.

Lemma bitRead_bitClear (v i j : Z) :
  0 <= i < 8 -> 0 <= j < 8 ->
  bitRead (bitClear v i) j = negb (i =? j) && bitRead v j.
Proof.
  intros Hi Hj. unfold bitClear. rewrite bitRead_to_uint8 by assumption.
  unfold bitRead at 1. rewrite Z.land_spec.
  unfold to_ulong at 1. rewrite Z.mod_pow2_bits_low by lia.
  rewrite Z.lnot_spec by lia.
  fold (bitRead (to_ulong (Z.shiftl 1 i)) j).
  rewrite bitRead_mask by assumption. apply andb_comm.
Qed.

(** Rewrites the level of a line after the writes of the sketch into the
    level before them. *)
Ltac port_bits :=
  unfold compressorOut, pad1Valve, pad2Valve, errorLed, safetyLed,
    port_closed, port_closed1, port_pad2, port_pad1, port_safe,
    port_error, port_compressor;
  unfold _CompressorBit_, _Pad1LaunchBit_, _Pad2LaunchBit_, _ErrorLedBit_,
    _SafetyLedBit_;
  repeat match goal with
    | |- context [if ?b then bitSet _ _ else _] => destruct b
    end;
  repeat first
    [ rewrite bitRead_bitSet by lia
    | rewrite bitRead_bitClear by lia ];
  cbn [Z.eqb Pos.eqb negb orb andb].

(* ===================================================================== *)
(** * The four branches of one pass *)
(* ===================================================================== *)

Section Branches.

Context {P Rx : Type} `{LaunchDataPacket P Rx}.

Ltac run_pass :=
  unfold loop, updateData, readPressure, readZigbee, writeZigbeeMaster,
    blinkErrorLed, launchRocket, millis, analogRead, on_data, ask_data,
    bitSet_PORTD, bitClear_PORTD, delay, emit, modify, get, bind, ret;
  unfold after_pass, pulse_after, stamp_after, prelude, fires, launchSeen,
    launchSeenFalse, timedOut, polled, rising, flips, pulseTime, sampled,
    firing_events, cleared, resampled in *.

(** Communication is lost: the three flags of the packet are cleared and
    the error LED is written; nothing else is. *)
Lemma loop_timeout (e : Env Rx) (s : Sketch P) :
  timedOut e s = true ->
  loop e s =
    (tt,
     after_pass e s (port_error (pulse_after e s) (PORTD s))
       (wasRocketLaunched s) (cleared (polled e s)),
     prelude e s
       ++ [EvPort (PORTD s) (port_error (pulse_after e s) (PORTD s))]).
Proof.
  intros Ht. destruct s as [port ph ts tm latch d]. run_pass. simpl in *.
  destruct (_pulse_halfwidth_ <? _) eqn:Hf; simpl in *;
    destruct ph; simpl in *; rewrite Ht; reflexivity.
Qed.

(** The launch request is seen and the latch is clear: the firing
    sequence runs. *)
Lemma loop_fire (e : Env Rx) (s : Sketch P) :
  fires e s = true ->
  loop e s =
    (tt,
     after_pass e s
       (port_closed (isPad1Selected (polled e s)) (isPad2Selected (polled e s))
                    (PORTD s))
       true (resampled e (polled e s)),
     prelude e s
       ++ firing_events (isPad1Selected (polled e s))
            (isPad2Selected (polled e s)) (PORTD s)
            (analog_fire e _Pressure1Analog_) (analog_fire e _Pressure2Analog_)).
Proof.
  intros Hfire. destruct s as [port ph ts tm latch d]. run_pass. simpl in *.
  apply andb_prop in Hfire. destruct Hfire as [Hseen Hl].
  apply andb_prop in Hseen. destruct Hseen as [Ht Hm].
  apply negb_true_iff in Hl. apply negb_true_iff in Ht. subst latch.
  destruct (_pulse_halfwidth_ <? _) eqn:Hf; simpl in *;
    destruct ph; simpl in *; rewrite Ht; simpl; rewrite Hm; simpl;
    destruct (isPad1Selected _), (isPad2Selected _); reflexivity.
Qed.

(** The launch request is seen and the latch is set: nothing is written. *)
Lemma loop_debounced (e : Env Rx) (s : Sketch P) :
  launchSeen e s = true ->
  wasRocketLaunched s = true ->
  loop e s = (tt, after_pass e s (PORTD s) true (polled e s), prelude e s).
Proof.
  intros Hseen Hl. destruct s as [port ph ts tm latch d]. run_pass. simpl in *.
  apply andb_prop in Hseen. destruct Hseen as [Ht Hm].
  apply negb_true_iff in Ht. subst latch.
  destruct (_pulse_halfwidth_ <? _) eqn:Hf; simpl in *;
    destruct ph; simpl in *; rewrite Ht; simpl; rewrite Hm; simpl;
    rewrite ?app_nil_r; reflexivity.
Qed.

(** The launch request is seen false: the latch is reset and the
    compressor line follows the request. *)
Lemma loop_idle (e : Env Rx) (s : Sketch P) :
  launchSeenFalse e s = true ->
  loop e s =
    (tt,
     after_pass e s
       (port_compressor (isCompressorOn (polled e s)) (PORTD s))
       false (polled e s),
     prelude e s
       ++ [EvPort (PORTD s)
             (port_compressor (isCompressorOn (polled e s)) (PORTD s))]).
Proof.
  intros Hseen. destruct s as [port ph ts tm latch d]. run_pass. simpl in *.
  apply andb_prop in Hseen. destruct Hseen as [Ht Hm].
  apply negb_true_iff in Ht. apply negb_true_iff in Hm.
  destruct (_pulse_halfwidth_ <? _) eqn:Hf; simpl in *;
    destruct ph; simpl in *; rewrite Ht; simpl; rewrite Hm; simpl;
    destruct (isCompressorOn _); reflexivity.
Qed.

End Branches.

(* ===================================================================== *)
(** * Which branch a pass takes *)
(* ===================================================================== *)

Section Passes.

Context {P Rx : Type} `{LaunchDataPacket P Rx}.

Lemma pass_cases (e : Env Rx) (s : Sketch P) :
  timedOut e s = true
  \/ fires e s = true
  \/ (launchSeen e s = true /\ wasRocketLaunched s = true)
  \/ launchSeenFalse e s = true.
Proof.
  unfold fires, launchSeen, launchSeenFalse.
  destruct (timedOut e s), (isMasterLaunchSet (polled e s)),
    (wasRocketLaunched s); simpl; auto.
Qed.

Lemma timeout_not_seen (e : Env Rx) (s : Sketch P) :
  timedOut e s = true ->
  launchSeen e s = false /\ launchSeenFalse e s = false /\ fires e s = false.
Proof.
  unfold fires, launchSeen, launchSeenFalse. intros ->. auto.
Qed.

Lemma seen_not_timeout (e : Env Rx) (s : Sketch P) :
  launchSeen e s = true ->
  timedOut e s = false /\ launchSeenFalse e s = false.
Proof.
  unfold launchSeen, launchSeenFalse.
  destruct (timedOut e s), (isMasterLaunchSet (polled e s)); simpl;
    intros; try discriminate; auto.
Qed.

Lemma seen_false_not_seen (e : Env Rx) (s : Sketch P) :
  launchSeenFalse e s = true ->
  timedOut e s = false /\ launchSeen e s = false /\ fires e s = false.
Proof.
  unfold fires, launchSeen, launchSeenFalse.
  destruct (timedOut e s), (isMasterLaunchSet (polled e s)); simpl;
    intros; try discriminate; auto.
Qed.

Lemma fires_seen (e : Env Rx) (s : Sketch P) :
  fires e s = true -> launchSeen e s = true /\ wasRocketLaunched s = false.
Proof.
  unfold fires. intros Hf. apply andb_prop in Hf. destruct Hf as [Hs Hl].
  apply negb_true_iff in Hl. auto.
Qed.

(** ** Traces *)

Lemma port_levels_app (t1 t2 : list (Event P)) :
  port_levels (t1 ++ t2) = port_levels t1 ++ port_levels t2.
Proof.
  induction t1 as [|ev t1 IH]; simpl; [reflexivity|].
  destruct ev; simpl; rewrite ?IH; reflexivity.
Qed.

Lemma port_levels_prelude (e : Env Rx) (s : Sketch P) :
  port_levels (prelude e s) = [].
Proof. unfold prelude. destruct (rising e s); reflexivity. Qed.

Lemma firings_app (t1 t2 : list (Event P)) :
  firings (t1 ++ t2) = (firings t1 + firings t2)%nat.
Proof. unfold firings. rewrite filter_app, length_app. reflexivity. Qed.

Lemma firings_prelude (e : Env Rx) (s : Sketch P) :
  firings (prelude e s) = 0%nat.
Proof. unfold prelude. destruct (rising e s); reflexivity. Qed.

Lemma firings_firing_events (sel1 sel2 : bool) (v q1 q2 : Z) :
  firings (firing_events (P:=P) sel1 sel2 v q1 q2) = 1%nat.
Proof. destruct sel1, sel2; reflexivity. Qed.

Lemma opens_app (line : Z -> bool) (t1 t2 : list (Event P)) :
  opens line (t1 ++ t2) <-> opens line t1 \/ opens line t2.
Proof.
  unfold opens. split.
  - intros (b & a & Hin & Hb & Ha). apply in_app_or in Hin.
    destruct Hin; [left | right]; eauto.
  - intros [(b & a & Hin & Hb & Ha) | (b & a & Hin & Hb & Ha)];
      exists b, a; (split; [apply in_or_app; auto | auto]).
Qed.

Lemma opens_prelude (line : Z -> bool) (e : Env Rx) (s : Sketch P) :
  ~ opens line (prelude e s).
Proof.
  unfold opens, prelude. intros (b & a & Hin & _).
  destruct (rising e s); simpl in Hin;
    repeat (destruct Hin as [Hin | Hin]; [discriminate|]); exact Hin.
Qed.

Lemma opens_one (line : Z -> bool) (b a : Z) :
  opens (P:=P) line [EvPort b a] <-> line b = false /\ line a = true.
Proof.
  unfold opens. split.
  - intros (b' & a' & [Heq | []] & Hb & Ha). inversion Heq; subst. auto.
  - intros [Hb Ha]. exists b, a. simpl. auto.
Qed.

(** The actions of a pass, by branch. *)
Lemma actions_cases (e : Env Rx) (s : Sketch P) :
  actions (loop e) s =
    prelude e s ++
    (if timedOut e s then
       [EvPort (PORTD s) (port_error (pulse_after e s) (PORTD s))]
     else if fires e s then
       firing_events (isPad1Selected (polled e s))
         (isPad2Selected (polled e s)) (PORTD s)
         (analog_fire e _Pressure1Analog_) (analog_fire e _Pressure2Analog_)
     else if launchSeen e s then []
     else
       [EvPort (PORTD s)
          (port_compressor (isCompressorOn (polled e s)) (PORTD s))]).
Proof.
  unfold actions.
  destruct (pass_cases e s) as [Hb | [Hb | [[Hb Hl] | Hb]]].
  - rewrite (loop_timeout e s Hb), Hb. reflexivity.
  - rewrite (loop_fire e s Hb), Hb.
    destruct (fires_seen e s Hb) as [Hs _].
    destruct (seen_not_timeout e s Hs) as [-> _]. reflexivity.
  - rewrite (loop_debounced e s Hb Hl), Hb.
    destruct (seen_not_timeout e s Hb) as [-> _].
    unfold fires. rewrite Hb, Hl. simpl. rewrite app_nil_r. reflexivity.
  - rewrite (loop_idle e s Hb).
    destruct (seen_false_not_seen e s Hb) as (-> & -> & ->). reflexivity.
Qed.

(** The state after a pass, by branch. *)
Lemma exec_cases (e : Env Rx) (s : Sketch P) :
  exec (loop e) s =
    if timedOut e s then
      after_pass e s (port_error (pulse_after e s) (PORTD s))
        (wasRocketLaunched s) (cleared (polled e s))
    else if fires e s then
      after_pass e s
        (port_closed (isPad1Selected (polled e s))
           (isPad2Selected (polled e s)) (PORTD s))
        true (resampled e (polled e s))
    else if launchSeen e s then
      after_pass e s (PORTD s) true (polled e s)
    else
      after_pass e s
        (port_compressor (isCompressorOn (polled e s)) (PORTD s))
        false (polled e s).
Proof.
  unfold exec.
  destruct (pass_cases e s) as [Hb | [Hb | [[Hb Hl] | Hb]]].
  - rewrite (loop_timeout e s Hb), Hb. reflexivity.
  - rewrite (loop_fire e s Hb), Hb.
    destruct (fires_seen e s Hb) as [Hs _].
    destruct (seen_not_timeout e s Hs) as [-> _]. reflexivity.
  - rewrite (loop_debounced e s Hb Hl), Hb.
    destruct (seen_not_timeout e s Hb) as [-> _].
    unfold fires. rewrite Hb, Hl. reflexivity.
  - rewrite (loop_idle e s Hb).
    destruct (seen_false_not_seen e s Hb) as (-> & -> & ->). reflexivity.
Qed.

(** ** Several passes *)

Lemma run_app (es1 es2 : list (Env Rx)) (s : Sketch P) :
  run (es1 ++ es2) s = run es2 (run es1 s).
Proof.
  revert s. induction es1 as [|e es1 IH]; intros s; simpl; auto.
Qed.

Lemma reachable_boot : reachable (P:=P) boot.
Proof. exists []. reflexivity. Qed.

Lemma reachable_step (e : Env Rx) (s : Sketch P) :
  reachable s -> reachable (exec (loop e) s).
Proof.
  intros [es ->]. exists (es ++ [e]). rewrite run_app. reflexivity.
Qed.

Lemma reachable_ind_from_boot (Q : Sketch P -> Prop) :
  Q boot ->
  (forall e s, Q s -> Q (exec (loop e) s)) ->
  forall s, reachable s -> Q s.
Proof.
  intros Hboot Hstep s [es ->].
  induction es as [|e es IH] using rev_ind; simpl; [exact Hboot|].
  rewrite run_app. simpl. apply Hstep, IH.
Qed.

(** ** The valve lines between passes *)

Lemma valves_closed_step (e : Env Rx) (s : Sketch P) :
  valves_closed s -> valves_closed (exec (loop e) s).
Proof.
  unfold valves_closed. intros [H1 H2]. rewrite exec_cases.
  destruct (timedOut e s); [|destruct (fires e s); [|destruct (launchSeen e s)]];
    cbn [after_pass PORTD]; revert H1 H2; port_bits; auto.
Qed.

Lemma reachable_valves_closed (s : Sketch P) :
  reachable s -> valves_closed s.
Proof.
  apply reachable_ind_from_boot.
  - split; reflexivity.
  - intros e s0. apply valves_closed_step.
Qed.

End Passes.

(* ===================================================================== *)
(** * The sketch at work *)
(* ===================================================================== *)

(** The first pass after power-on, with a launch request for pad 1: the
    two samples, the poll, the compressor line cleared (it was off), the
    valve of pad 1 on (PORTD = 64), the hold, both valve lines cleared,
    the two samples after the firing. *)
Example first_firing_actions :
  actions (loop (Scenario.launch_pad1 0)) boot =
    [EvAnalogRead 1 512; EvAnalogRead 2 512; EvReadXbee;
     EvPort 0 0; EvPort 0 64; EvDelay 100; EvPort 64 0; EvPort 0 0;
     EvAnalogRead 1 40; EvAnalogRead 2 40].
Proof. vm_compute. reflexivity. Qed.

(** The same request on the next pass: no write at all. *)
Example repeated_request_actions :
  actions (loop (Scenario.nothing 10))
          (exec (loop (Scenario.launch_pad1 0)) boot) =
    [EvAnalogRead 1 512; EvAnalogRead 2 512; EvReadXbee].
Proof. vm_compute. reflexivity. Qed.

(** The compressor runs (PORTD = 16) and the master falls silent: the
    heartbeat flips to on, telemetry goes out, the error LED line is set
    (PORTD = 24), and that is the only write. *)
Example silence_actions :
  port_levels (actions (loop Scenario.silence) Scenario.compressing) = [24]
  /\ PORTD Scenario.compressing = 16
  /\ length (telemetry (actions (loop Scenario.silence) Scenario.compressing))
     = 1%nat.
Proof. vm_compute. auto. Qed.

(* ===================================================================== *)
(** * Fail-safe on loss of communication *)
(* ===================================================================== *)

Section FailSafe.

Context {P Rx : Type} `{LaunchDataPacket P Rx}.

(** A pass with a timeout writes the error LED line only: the compressor
    line and the two valve lines keep the level they had, and no valve is
    switched on. *)
Lemma timeout_pass_outputs (e : Env Rx) (s : Sketch P) :
  timedOut e s = true ->
  let s' := exec (loop e) s in
  compressorOut (PORTD s') = compressorOut (PORTD s)
  /\ pad1Valve (PORTD s') = pad1Valve (PORTD s)
  /\ pad2Valve (PORTD s') = pad2Valve (PORTD s)
  /\ ~ opens pad1Valve (actions (loop e) s)
  /\ ~ opens pad2Valve (actions (loop e) s)
  /\ firings (actions (loop e) s) = 0%nat
  /\ isCompressorOn (data s') = isCompressorOn (cleared (polled e s)).
Proof.
  intros Ht s'. subst s'. rewrite exec_cases, actions_cases, Ht.
  cbn [after_pass PORTD data].
  repeat split.
  - port_bits; reflexivity.
  - port_bits; reflexivity.
  - port_bits; reflexivity.
  - rewrite opens_app, opens_one. intros [Ho | [Hb Ha]].
    + exact (opens_prelude _ e s Ho).
    + revert Hb Ha. port_bits; congruence.
  - rewrite opens_app, opens_one. intros [Ho | [Hb Ha]].
    + exact (opens_prelude _ e s Ho).
    + revert Hb Ha. port_bits; congruence.
  - rewrite firings_app, firings_prelude. reflexivity.
Qed.

End FailSafe.

(** C1 (the sketch departs from the claim).  The claim: on every pass in
    which the watchdog reports a timeout, the compressor output is off
    after the pass and no valve opens.  The sketch: the compressor runs
    on the master's request, the master falls silent, the next pass finds
    the timeout, calls [data.compressorOff()], which clears the request
    flag of the packet, and leaves the compressor line of PORTD on. *)
Theorem C1_timeout_leaves_compressor_running :
  let s := Scenario.compressing in
  let e := Scenario.silence in
  reachable s
  /\ timedOut e s = true
  /\ compressorOut (PORTD s) = true
  /\ isCompressorOn (data (exec (loop e) s)) = false
  /\ compressorOut (PORTD (exec (loop e) s)) = true.
Proof.
  cbv zeta. split.
  - exists [Scenario.compressor_request]. reflexivity.
  - repeat split; vm_compute; reflexivity.
Qed.

(* ===================================================================== *)
(** * The valve lines between passes *)
(* ===================================================================== *)

Section Valves.

Context {P Rx : Type} `{LaunchDataPacket P Rx}.

(** C10.  Between two passes of the loop both valve lines are off, and a
    valve line is on after a write of a pass only if that pass runs the
    firing sequence, which ends with both lines off. *)
Theorem C10_valves_closed_between_passes (s : Sketch P) :
  reachable s ->
  pad1Valve (PORTD s) = false
  /\ pad2Valve (PORTD s) = false
  /\ (forall e,
        on_during pad1Valve (actions (loop e) s)
        \/ on_during pad2Valve (actions (loop e) s) ->
        fires e s = true)
  /\ (forall e,
        pad1Valve (PORTD (exec (loop e) s)) = false
        /\ pad2Valve (PORTD (exec (loop e) s)) = false).
Proof.
  intros Hr. destruct (reachable_valves_closed s Hr) as [H1 H2].
  split; [exact H1|]. split; [exact H2|]. split.
  - intros e Hon.
    destruct (fires e s) eqn:Hf; [reflexivity|exfalso].
    rewrite actions_cases, Hf in Hon.
    unfold on_during in Hon. rewrite !port_levels_app, port_levels_prelude in Hon.
    simpl app in Hon.
    destruct (timedOut e s); [|destruct (launchSeen e s)];
      cbn [port_levels In] in Hon;
      destruct Hon as [(v & Hin & Hv) | (v & Hin & Hv)];
      try (destruct Hin as [<- | []]); try contradiction;
      revert H1 H2 Hv; port_bits; congruence.
  - intros e. apply (valves_closed_step e s). split; assumption.
Qed.

End Valves.

(** C10 on the pad while the compressor runs. *)
Lemma C10_valves_closed_witness :
  reachable Scenario.compressing
  /\ pad1Valve (PORTD Scenario.compressing) = false
  /\ pad2Valve (PORTD Scenario.compressing) = false.
Proof.
  assert (Hr : reachable Scenario.compressing)
    by (exists [Scenario.compressor_request]; reflexivity).
  split; [exact Hr|].
  destruct (C10_valves_closed_between_passes Scenario.compressing Hr)
    as (H1 & H2 & _).
  split; assumption.
Defined.

(* ===================================================================== *)
(** * The launch latch *)
(* ===================================================================== *)

Section Latch.

Context {P Rx : Type} `{LaunchDataPacket P Rx}.

Lemma latch_after (e : Env Rx) (s : Sketch P) :
  wasRocketLaunched (exec (loop e) s) =
    if timedOut e s then wasRocketLaunched s
    else if launchSeen e s then true else false.
Proof.
  rewrite exec_cases.
  destruct (timedOut e s) eqn:Ht; [reflexivity|].
  destruct (fires e s) eqn:Hf.
  - destruct (fires_seen e s Hf) as [-> _]. reflexivity.
  - destruct (launchSeen e s); reflexivity.
Qed.

Lemma firings_pass (e : Env Rx) (s : Sketch P) :
  firings (actions (loop e) s) = if fires e s then 1%nat else 0%nat.
Proof.
  rewrite actions_cases, firings_app, firings_prelude.
  destruct (timedOut e s) eqn:Ht.
  - destruct (timeout_not_seen e s Ht) as (_ & _ & ->). reflexivity.
  - destruct (fires e s); [apply firings_firing_events|].
    destruct (launchSeen e s); reflexivity.
Qed.

(** A pass that does not run the firing sequence switches no valve on. *)
Lemma quiet_pass_opens_nothing (e : Env Rx) (s : Sketch P) :
  fires e s = false ->
  ~ opens pad1Valve (actions (loop e) s)
  /\ ~ opens pad2Valve (actions (loop e) s).
Proof.
  intros Hf. rewrite actions_cases, Hf.
  assert (Hq : forall line : Z -> bool,
             (forall b v, line (port_error b v) = line v) ->
             (forall b v, line (port_compressor b v) = line v) ->
             ~ opens line
                 (if timedOut e s
                  then [EvPort (P:=P) (PORTD s)
                          (port_error (pulse_after e s) (PORTD s))]
                  else if launchSeen e s then []
                  else [EvPort (PORTD s)
                          (port_compressor (isCompressorOn (polled e s))
                             (PORTD s))])).
  { intros line He Hc Ho.
    destruct (timedOut e s); [|destruct (launchSeen e s)].
    - apply opens_one in Ho. rewrite He in Ho. destruct Ho; congruence.
    - destruct Ho as (b & a & [] & _).
    - apply opens_one in Ho. rewrite Hc in Ho. destruct Ho; congruence. }
  split; rewrite opens_app; intros [Ho | Ho];
    try exact (opens_prelude _ e s Ho);
    revert Ho; apply Hq; intros b v; port_bits; reflexivity.
Qed.

Lemma run_actions_cons (e : Env Rx) (es : list (Env Rx)) (s : Sketch P) :
  run_actions (e :: es) s =
    actions (loop e) s ++ run_actions es (exec (loop e) s).
Proof. reflexivity. Qed.

(** While the latch is set and the request is never observed false, the
    latch stays set and nothing fires. *)
Lemma latched_run (es : list (Env Rx)) (s : Sketch P) :
  wasRocketLaunched s = true ->
  none_seen_false es s = true ->
  wasRocketLaunched (run es s) = true
  /\ firings (run_actions es s) = 0%nat
  /\ ~ opens pad1Valve (run_actions es s)
  /\ ~ opens pad2Valve (run_actions es s).
Proof.
  revert s. induction es as [|e es IH]; intros s Hl Hn.
  - simpl. repeat split; auto; intros (b & a & [] & _).
  - simpl in Hn. apply andb_prop in Hn. destruct Hn as [Hnf Hn].
    apply negb_true_iff in Hnf.
    assert (Hf : fires e s = false).
    { unfold fires. rewrite Hl. apply andb_false_r. }
    assert (Hl' : wasRocketLaunched (exec (loop e) s) = true).
    { rewrite latch_after. destruct (timedOut e s) eqn:Ht; [exact Hl|].
      destruct (launchSeen e s) eqn:Hs; [reflexivity|].
      unfold launchSeenFalse, launchSeen in *. rewrite Ht in *.
      destruct (isMasterLaunchSet (polled e s)); discriminate. }
    destruct (IH _ Hl' Hn) as (IH1 & IH2 & IH3 & IH4).
    destruct (quiet_pass_opens_nothing e s Hf) as [Hq1 Hq2].
    rewrite run_actions_cons, firings_app, firings_pass, Hf, !opens_app.
    simpl run. repeat split; auto; intros [Ho | Ho]; auto.
Qed.






(** C6.  A firing sets the launch latch.  While the latch is set, passes
    on which the request is not observed false (a timeout, or the request
    still true) leave it set, run no firing sequence and switch no valve
    on.  A pass on which the request is observed false clears the latch,
    and the next pass on which the request is observed true fires. *)
Theorem C6_latch_blocks_until_request_seen_false
    (s0 : Sketch P) (e0 : Env Rx) (es : list (Env Rx)) :
  fires e0 s0 = true ->
  none_seen_false es (exec (loop e0) s0) = true ->
  let s := exec (loop e0) s0 in
  let s1 := run es s in
  wasRocketLaunched s = true
  /\ wasRocketLaunched s1 = true
  /\ firings (run_actions es s) = 0%nat
  /\ ~ opens pad1Valve (run_actions es s)
  /\ ~ opens pad2Valve (run_actions es s)
  /\ (forall e, launchSeen e s1 = true -> fires e s1 = false)
  /\ (forall e_false e_true,
        launchSeenFalse e_false s1 = true ->
        let s2 := exec (loop e_false) s1 in
        launchSeen e_true s2 = true ->
        wasRocketLaunched s2 = false
        /\ firings (actions (loop e_false) s1) = 0%nat
        /\ fires e_true s2 = true
        /\ firings (actions (loop e_true) s2) = 1%nat).
Proof.
  intros Hf Hn s s1.
  assert (Hl : wasRocketLaunched s = true).
  { subst s. rewrite latch_after. destruct (fires_seen e0 s0 Hf) as [Hs _].
    destruct (seen_not_timeout e0 s0 Hs) as [-> _]. rewrite Hs. reflexivity. }
  destruct (latched_run es s Hl Hn) as (Hl1 & Hz & Ho1 & Ho2).
  fold s1 in Hl1.
  repeat (split; [assumption|]). split.
  - intros e _. unfold fires. rewrite Hl1. apply andb_false_r.
  - intros e_false e_true Hsf s2 Hst.
    assert (Hl2 : wasRocketLaunched s2 = false).
    { subst s2. rewrite latch_after.
      destruct (seen_false_not_seen e_false s1 Hsf) as (-> & -> & _).
      reflexivity. }
    assert (Hf2 : fires e_true s2 = true).
    { unfold fires. rewrite Hst, Hl2. reflexivity. }
    split; [exact Hl2|]. split.
    + rewrite firings_pass.
      destruct (seen_false_not_seen e_false s1 Hsf) as (_ & _ & ->).
      reflexivity.
    + split; [exact Hf2|]. rewrite firings_pass, Hf2. reflexivity.
Qed.

End Latch.


(** C6 on the pad: fire, hold the request, lose the master, clear the
    request, ask again. *)
Lemma C6_latch_witness :
  fires (Scenario.launch_pad1 0) boot = true
  /\ none_seen_false [Scenario.nothing 10; Scenario.silence]
       (exec (loop (Scenario.launch_pad1 0)) boot) = true
  /\ firings (run_actions [Scenario.nothing 10; Scenario.silence]
       (exec (loop (Scenario.launch_pad1 0)) boot)) = 0%nat.
Proof.
  assert (Hf : fires (Scenario.launch_pad1 0) boot = true)
    by (vm_compute; reflexivity).
  assert (Hn : none_seen_false [Scenario.nothing 10; Scenario.silence]
                 (exec (loop (Scenario.launch_pad1 0)) boot) = true)
    by (vm_compute; reflexivity).
  split; [exact Hf|]. split; [exact Hn|].
  destruct (C6_latch_blocks_until_request_seen_false boot
              (Scenario.launch_pad1 0)
              [Scenario.nothing 10; Scenario.silence] Hf Hn)
    as (_ & _ & Hz & _).
  exact Hz.
Defined.

(* ===================================================================== *)
(** * The firing sequence *)
(* ===================================================================== *)

Section Firing.

Context {P Rx : Type} `{LaunchDataPacket P Rx}.

Lemma actions_fire (e : Env Rx) (s : Sketch P) :
  fires e s = true ->
  actions (loop e) s =
    prelude e s
    ++ firing_events (isPad1Selected (polled e s))
         (isPad2Selected (polled e s)) (PORTD s)
         (analog_fire e _Pressure1Analog_) (analog_fire e _Pressure2Analog_).
Proof.
  intros Hf. rewrite actions_cases, Hf.
  destruct (fires_seen e s Hf) as [Hs _].
  destruct (seen_not_timeout e s Hs) as [-> _]. reflexivity.
Qed.

Lemma exec_fire (e : Env Rx) (s : Sketch P) :
  fires e s = true ->
  exec (loop e) s =
    after_pass e s
      (port_closed (isPad1Selected (polled e s))
         (isPad2Selected (polled e s)) (PORTD s))
      true (resampled e (polled e s)).
Proof.
  intros Hf. rewrite exec_cases, Hf.
  destruct (fires_seen e s Hf) as [Hs _].
  destruct (seen_not_timeout e s Hs) as [-> _]. reflexivity.
Qed.

(** Walks along an explicit trace: one case per position. *)
Ltac at_position i Hn :=
  do 12 (try (destruct i as [|i]; cbn [nth_error] in Hn;
              [try discriminate Hn|]));
  try (destruct i; discriminate Hn).

(** C3.  In a pass that runs the firing sequence, every write to PORTD
    that switches a valve line on starts from a register in which the
    compressor line is already off and leaves it off, and a strictly
    earlier write of the same pass has driven the compressor line off
    without touching either valve line. *)
Theorem C3_compressor_off_before_valves
    (e : Env Rx) (s : Sketch P) (i : nat) (before after : Z) :
  fires e s = true ->
  nth_error (actions (loop e) s) i = Some (EvPort before after) ->
  (pad1Valve before = false /\ pad1Valve after = true)
  \/ (pad2Valve before = false /\ pad2Valve after = true) ->
  compressorOut before = false
  /\ compressorOut after = false
  /\ exists j before' after',
       (j < i)%nat
       /\ nth_error (actions (loop e) s) j = Some (EvPort before' after')
       /\ compressorOut after' = false
       /\ pad1Valve after' = pad1Valve before'
       /\ pad2Valve after' = pad2Valve before'.
Proof.
  intros Hf Hn Hopen. rewrite (actions_fire e s Hf) in *.
  unfold prelude, firing_events in *.
  assert (Hsafe : compressorOut (port_safe (PORTD s)) = false
                  /\ pad1Valve (port_safe (PORTD s)) = pad1Valve (PORTD s)
                  /\ pad2Valve (port_safe (PORTD s)) = pad2Valve (PORTD s)).
  { port_bits. auto. }
  destruct Hsafe as (Hs4 & Hs6 & Hs5).
  destruct (rising e s), (isPad1Selected (polled e s)),
    (isPad2Selected (polled e s)); cbn [app] in *;
    at_position i Hn; injection Hn as <- <-;
    try (exfalso; revert Hopen; port_bits;
         intros [[Hb Ha] | [Hb Ha]]; congruence);
    (split; [port_bits; reflexivity|]);
    (split; [port_bits; reflexivity|]);
    first [ exists 4%nat, (PORTD s), (port_safe (PORTD s));
            split; [lia|]; split; [reflexivity|]; auto
          | exists 3%nat, (PORTD s), (port_safe (PORTD s));
            split; [lia|]; split; [reflexivity|]; auto ].
Qed.

Lemma in_firing_events (sel1 sel2 : bool) (v q1 q2 b a : Z) :
  In (EvPort (P:=P) b a) (firing_events sel1 sel2 v q1 q2) ->
  (b = v /\ a = port_safe v)
  \/ (sel1 = true /\ b = port_safe v /\ a = port_pad1 sel1 v)
  \/ (sel2 = true /\ b = port_pad1 sel1 v /\ a = port_pad2 sel1 sel2 v)
  \/ (b = port_pad2 sel1 sel2 v /\ a = port_closed1 sel1 sel2 v)
  \/ (b = port_closed1 sel1 sel2 v /\ a = port_closed sel1 sel2 v).
Proof.
  unfold firing_events. intros Hin.
  destruct sel1, sel2; cbn [app In] in Hin;
    repeat (destruct Hin as [Heq | Hin];
            [first [discriminate Heq | injection Heq as <- <-]|]);
    try contradiction; auto 10.
Qed.

(** C4 (amended).  In a pass that runs the firing sequence, the valve of
    pad 1 is switched on iff pad 1 is selected in the packet as the
    sequencer reads it, that is after the radio has been polled in this
    pass; the same for pad 2; each independently of the other. *)
Theorem C4_pad_selection (e : Env Rx) (s : Sketch P) :
  reachable s ->
  fires e s = true ->
  (opens pad1Valve (actions (loop e) s)
     <-> isPad1Selected (polled e s) = true)
  /\ (opens pad2Valve (actions (loop e) s)
     <-> isPad2Selected (polled e s) = true).
Proof.
  intros Hr Hf. destruct (reachable_valves_closed s Hr) as [H1 H2].
  rewrite (actions_fire e s Hf).
  set (sel1 := isPad1Selected (polled e s)).
  set (sel2 := isPad2Selected (polled e s)).
  set (v := PORTD s) in *.
  split; rewrite opens_app; split.
  - intros [Ho | (b & a & Hin & Hb & Ha)];
      [destruct (opens_prelude _ e s Ho)|].
    apply in_firing_events in Hin.
    destruct sel1; [reflexivity|exfalso].
    destruct Hin as [[-> ->] | [(Hs & _) | [(_ & -> & ->) | [[-> ->] | [-> ->]]]]];
      try discriminate Hs;
      revert H1 H2 Hb Ha; port_bits; congruence.
  - intros Hsel. right. exists (port_safe v), (port_pad1 sel1 v).
    rewrite Hsel. split.
    + unfold firing_events. apply in_or_app. right.
      apply in_or_app. left. left. reflexivity.
    + revert H1 H2; port_bits; auto.
  - intros [Ho | (b & a & Hin & Hb & Ha)];
      [destruct (opens_prelude _ e s Ho)|].
    apply in_firing_events in Hin.
    destruct sel2; [reflexivity|exfalso].
    destruct Hin as [[-> ->] | [(_ & -> & ->) | [(Hs & _) | [[-> ->] | [-> ->]]]]];
      try discriminate Hs;
      revert H1 H2 Hb Ha; port_bits; congruence.
  - intros Hsel. right. exists (port_pad1 sel1 v), (port_pad2 sel1 sel2 v).
    rewrite Hsel. split.
    + unfold firing_events. apply in_or_app. right.
      apply in_or_app. right. apply in_or_app. left. left. reflexivity.
    + revert H1 H2; port_bits; auto.
Qed.

(** C5.  A pass that runs the firing sequence ends with: the hold of 100
    time-units, during which every selected valve line is on; the write
    that closes the valve of pad 1, the write that closes the valve of
    pad 2; one more sample of each chamber pressure, stored in the packet.
    The pass began with the sample of each pressure that every pass
    takes; there is no other hold and no other sample in it. *)
Theorem C5_hold_close_resample (e : Env Rx) (s : Sketch P) :
  fires e s = true ->
  exists (opening : list (Event P)) (v_hold v_mid v_end : Z),
    actions (loop e) s =
      [EvAnalogRead _Pressure1Analog_ (analog_tick e _Pressure1Analog_);
       EvAnalogRead _Pressure2Analog_ (analog_tick e _Pressure2Analog_)]
      ++ opening
      ++ [EvDelay 100;
          EvPort v_hold v_mid;
          EvPort v_mid v_end;
          EvAnalogRead _Pressure1Analog_ (analog_fire e _Pressure1Analog_);
          EvAnalogRead _Pressure2Analog_ (analog_fire e _Pressure2Analog_)]
    /\ firings opening = 0%nat
    /\ (forall pin v, ~ In (EvAnalogRead pin v) opening)
    /\ last (port_levels opening) (PORTD s) = v_hold
    /\ (isPad1Selected (polled e s) = true -> pad1Valve v_hold = true)
    /\ (isPad2Selected (polled e s) = true -> pad2Valve v_hold = true)
    /\ pad1Valve v_mid = false
    /\ pad1Valve v_end = false
    /\ pad2Valve v_end = false
    /\ PORTD (exec (loop e) s) = v_end
    /\ data (exec (loop e) s) = resampled e (polled e s).
Proof.
  intros Hf. rewrite (actions_fire e s Hf), (exec_fire e s Hf).
  set (sel1 := isPad1Selected (polled e s)).
  set (sel2 := isPad2Selected (polled e s)).
  set (v := PORTD s).
  exists ((if rising e s then [EvSendToMaster (sampled e s)] else [])
          ++ [EvReadXbee; EvPort v (port_safe v)]
          ++ (if sel1 then [EvPort (port_safe v) (port_pad1 sel1 v)] else [])
          ++ (if sel2 then [EvPort (port_pad1 sel1 v) (port_pad2 sel1 sel2 v)]
              else [])),
    (port_pad2 sel1 sel2 v), (port_closed1 sel1 sel2 v),
    (port_closed sel1 sel2 v).
  split.
  { unfold prelude, firing_events.
    destruct (rising e s), sel1, sel2; reflexivity. }
  split. { destruct (rising e s), sel1, sel2; reflexivity. }
  split.
  { intros pin x Hin. destruct (rising e s), sel1, sel2; cbn [app In] in Hin;
      repeat (destruct Hin as [Heq | Hin]; [discriminate Heq|]); exact Hin. }
  split. { destruct (rising e s), sel1, sel2; reflexivity. }
  split. { intros ->. port_bits; reflexivity. }
  split. { intros ->. port_bits; reflexivity. }
  split. { port_bits; reflexivity. }
  split. { port_bits; reflexivity. }
  split. { port_bits; reflexivity. }
  split; reflexivity.
Qed.

End Firing.

(** C3 on the pad: the write that opens the valve of pad 1 in the first
    firing after power-on. *)
Lemma C3_ordering_witness :
  fires (Scenario.launch_pad1 0) boot = true
  /\ nth_error (actions (loop (Scenario.launch_pad1 0)) boot) 4
       = Some (EvPort 0 64)
  /\ compressorOut 0 = false.
Proof.
  assert (Hf : fires (Scenario.launch_pad1 0) boot = true)
    by (vm_compute; reflexivity).
  assert (Hn : nth_error (actions (loop (Scenario.launch_pad1 0)) boot) 4
               = Some (EvPort 0 64)) by (vm_compute; reflexivity).
  split; [exact Hf|]. split; [exact Hn|].
  refine (proj1 (C3_compressor_off_before_valves (Scenario.launch_pad1 0)
                   boot 4 0 64 Hf Hn _)).
  left. split; vm_compute; reflexivity.
Defined.

(** C4 on the pad: both pads selected, both valves open. *)
Lemma C4_pad_selection_witness :
  reachable (P:=SpecPacket.Packet) boot
  /\ fires (Scenario.launch_both 0) boot = true
  /\ opens pad1Valve (actions (loop (Scenario.launch_both 0)) boot)
  /\ opens pad2Valve (actions (loop (Scenario.launch_both 0)) boot).
Proof.
  assert (Hf : fires (Scenario.launch_both 0) boot = true)
    by (vm_compute; reflexivity).
  split; [exact reachable_boot|]. split; [exact Hf|].
  destruct (C4_pad_selection (Scenario.launch_both 0) boot reachable_boot Hf)
    as [[_ H1] [_ H2]].
  split; [apply H1 | apply H2]; vm_compute; reflexivity.
Defined.

(** C4 as worded fails: at power-on no pad is selected; the message that
    asks for the launch selects pad 1, and the valve of pad 1 opens. *)
Lemma C4_pad_selection_counterexample :
  ~ pad_selection_as_stated (P:=SpecPacket.Packet) (Rx:=SpecPacket.Inbound).
Proof.
  intros Hc.
  assert (Hf : fires (Scenario.launch_pad1 0) boot = true)
    by (vm_compute; reflexivity).
  destruct (Hc boot (Scenario.launch_pad1 0) reachable_boot Hf) as [Hc1 _].
  assert (Ho : opens pad1Valve (actions (loop (Scenario.launch_pad1 0)) boot)).
  { exists 0, 64. split; [|split; reflexivity].
    do 4 right. left. reflexivity. }
  specialize (Hc1 Ho). vm_compute in Hc1. discriminate Hc1.
Qed.

(** C5 on the pad. *)
Lemma C5_hold_witness :
  fires (Scenario.launch_pad1 0) boot = true
  /\ data (exec (loop (Scenario.launch_pad1 0)) boot)
     = resampled (Scenario.launch_pad1 0)
         (polled (Scenario.launch_pad1 0) boot).
Proof.
  assert (Hf : fires (Scenario.launch_pad1 0) boot = true)
    by (vm_compute; reflexivity).
  split; [exact Hf|].
  destruct (C5_hold_close_resample (Scenario.launch_pad1 0) boot Hf)
    as (opening & v1 & v2 & v3 & Hfacts).
  exact (proj2 (proj2 (proj2 (proj2 (proj2 (proj2 (proj2 (proj2 (proj2
          (proj2 Hfacts)))))))))).
Defined.

(* ===================================================================== *)
(** * Heartbeat, LEDs and telemetry *)
(* ===================================================================== *)

Section Heartbeat.

Context {P Rx : Type} `{LaunchDataPacket P Rx}.

Lemma pulse_after_pass (e : Env Rx) (s : Sketch P) :
  pulse (exec (loop e) s) = pulse_after e s.
Proof.
  rewrite exec_cases.
  destruct (timedOut e s); [|destruct (fires e s); [|destruct (launchSeen e s)]];
    reflexivity.
Qed.

Lemma stamp_after_pass (e : Env Rx) (s : Sketch P) :
  timeSinceLastPulse (exec (loop e) s) = stamp_after e s.
Proof.
  rewrite exec_cases.
  destruct (timedOut e s); [|destruct (fires e s); [|destruct (launchSeen e s)]];
    reflexivity.
Qed.

(** The elapsed time of line 247 is the difference of the clock and the
    time stamp, wrapped into a [long]. *)
Lemma pulseTime_of_wrap (now last : Z) :
  pulseTime_of (to_ulong now) last = to_long (now - last).
Proof.
  unfold pulseTime_of, to_long, to_ulong.
  change (2 ^ 31) with 2147483648. change (2 ^ 32) with 4294967296.
  rewrite Zplus_mod_idemp_l. f_equal.
  replace (now mod 4294967296 - last mod 4294967296 + 2147483648)
    with (now - last + 2147483648
          + (last / 4294967296 - now / 4294967296) * 4294967296)
    by (rewrite (Z.mod_eq now 4294967296), (Z.mod_eq last 4294967296); lia).
  apply Z_mod_plus_full.
Qed.

Lemma to_long_small (d : Z) :
  - 2 ^ 31 <= d < 2 ^ 31 -> to_long d = d.
Proof.
  intros Hd. unfold to_long.
  change (2 ^ 31) with 2147483648 in *. change (2 ^ 32) with 4294967296.
  rewrite Z.mod_small by lia. lia.
Qed.

(** C7 (amended).  After a pass with a timeout the error LED line shows
    the heartbeat phase; after a pass without a timeout it keeps the
    level it had.  The safety LED line is written by no pass: it keeps
    its level through every write of every pass. *)
Theorem C7_error_led_follows_phase (e : Env Rx) (s : Sketch P) :
  errorLed (PORTD (exec (loop e) s))
    = (if timedOut e s then pulse (exec (loop e) s) else errorLed (PORTD s))
  /\ safetyLed (PORTD (exec (loop e) s)) = safetyLed (PORTD s)
  /\ (forall v, In v (port_levels (actions (loop e) s)) ->
                safetyLed v = safetyLed (PORTD s)).
Proof.
  split; [|split].
  - rewrite pulse_after_pass, exec_cases.
    destruct (timedOut e s); [|destruct (fires e s); [|destruct (launchSeen e s)]];
      cbn [after_pass PORTD]; port_bits; reflexivity.
  - rewrite exec_cases.
    destruct (timedOut e s); [|destruct (fires e s); [|destruct (launchSeen e s)]];
      cbn [after_pass PORTD]; port_bits; reflexivity.
  - intros v. rewrite actions_cases, port_levels_app, port_levels_prelude.
    cbn [app].
    destruct (timedOut e s); [|destruct (fires e s); [|destruct (launchSeen e s)]];
      try (destruct (isPad1Selected (polled e s)),
             (isPad2Selected (polled e s)));
      cbn [firing_events app port_levels In]; intros Hin;
      repeat (destruct Hin as [<- | Hin]; [port_bits; reflexivity|]);
      contradiction.
Qed.

(** C8 (amended).  The heartbeat phase flips in a pass iff the elapsed
    time since the time stamp of the last flip is strictly greater than
    the half-period of 100 time-units: at exactly 100 it does not flip.
    It flips once however long the pass was delayed, and the time stamp
    becomes the clock of the pass, not the time at which the flip was due.
    The elapsed time is the difference of the clock and the time stamp
    wrapped into 32 signed bits, which is the plain difference whenever
    that lies between -2^31 and 2^31. *)
Theorem C8_phase_flips_after_half_period (e : Env Rx) (s : Sketch P) :
  let elapsed := to_long (millis_check e - timeSinceLastPulse s) in
  (pulse (exec (loop e) s) = negb (pulse s) <-> _pulse_halfwidth_ < elapsed)
  /\ (pulse (exec (loop e) s) = pulse s <-> elapsed <= _pulse_halfwidth_)
  /\ (_pulse_halfwidth_ < elapsed ->
      timeSinceLastPulse (exec (loop e) s)
        = to_long (to_ulong (millis_stamp e)))
  /\ (elapsed <= _pulse_halfwidth_ ->
      timeSinceLastPulse (exec (loop e) s) = timeSinceLastPulse s)
  /\ (- 2 ^ 31 <= millis_check e - timeSinceLastPulse s < 2 ^ 31 ->
      elapsed = millis_check e - timeSinceLastPulse s).
Proof.
  intros elapsed. rewrite pulse_after_pass, stamp_after_pass.
  unfold pulse_after, stamp_after, flips, pulseTime.
  rewrite pulseTime_of_wrap. fold elapsed.
  split; [|split; [|split; [|split]]]; try apply to_long_small;
    destruct (Z.ltb_spec _pulse_halfwidth_ elapsed) as [Hlt | Hge];
    destruct (pulse s); cbn [xorb negb];
    (split || idtac); intros; try reflexivity; try discriminate; try lia.
Qed.

(** C9.  The telemetry of a pass is one packet if the heartbeat phase
    flips to on in the pass and nothing otherwise; the packet is the one
    that holds the two pressure samples of this pass, and it is sent
    right after they are taken; the pass after one that sent telemetry
    sends none. *)
Theorem C9_telemetry_on_rising_edge
    `{!StoresPressure P Rx} (e : Env Rx) (s : Sketch P) :
  telemetry (actions (loop e) s)
    = (if rising e s then [sampled e s] else [])
  /\ (rising e s = true
      <-> pulse s = false /\ pulse (exec (loop e) s) = true)
  /\ getPressure1 (sampled e s) = analog_tick e _Pressure1Analog_
  /\ getPressure2 (sampled e s) = analog_tick e _Pressure2Analog_
  /\ (rising e s = true ->
      exists rest,
        actions (loop e) s =
          EvAnalogRead _Pressure1Analog_ (analog_tick e _Pressure1Analog_)
          :: EvAnalogRead _Pressure2Analog_ (analog_tick e _Pressure2Analog_)
          :: EvSendToMaster (sampled e s) :: rest)
  /\ (forall e', rising e s = true ->
                 telemetry (actions (loop e') (exec (loop e) s)) = []).
Proof.
  assert (Htel : forall e0 s0,
            telemetry (actions (loop e0) s0)
              = if rising e0 s0 then [sampled e0 s0] else []).
  { intros e0 s0. rewrite actions_cases. unfold prelude, firing_events.
    destruct (rising e0 s0), (timedOut e0 s0), (fires e0 s0),
      (launchSeen e0 s0), (isPad1Selected (polled e0 s0)),
      (isPad2Selected (polled e0 s0)); reflexivity. }
  assert (Hrise : rising e s = true
                  <-> pulse s = false /\ pulse (exec (loop e) s) = true).
  { rewrite pulse_after_pass. unfold rising, pulse_after.
    destruct (flips e s), (pulse s); cbn; intuition congruence. }
  split; [apply Htel|]. split; [exact Hrise|].
  split. { unfold sampled. rewrite getPressure1_set2. apply getPressure1_set1. }
  split. { unfold sampled. apply getPressure2_set2. }
  split.
  - intros Hr. rewrite actions_cases. unfold prelude. rewrite Hr.
    cbn [app]. eexists. reflexivity.
  - intros e' Hr. rewrite Htel.
    apply Hrise in Hr. destruct Hr as [_ Hon].
    unfold rising. rewrite Hon, andb_false_r. reflexivity.
Qed.

End Heartbeat.

(** C7 as worded fails: at power-on, a pass at time 200 with the master
    present flips the phase to on and leaves the safety LED off. *)
Lemma C7_led_counterexample :
  ~ led_as_stated (P:=SpecPacket.Packet) (Rx:=SpecPacket.Inbound).
Proof.
  intros Hc.
  destruct (Hc boot (Scenario.no_request 200) reachable_boot) as [_ Hc2].
  specialize (Hc2 eq_refl). vm_compute in Hc2. discriminate Hc2.
Qed.

(** C8 at power-on: 150 time-units have elapsed, the phase flips. *)
Lemma C8_heartbeat_witness :
  pulse (exec (loop (Scenario.nothing 150)) boot) = negb (pulse boot).
Proof.
  apply (proj1 (C8_phase_flips_after_half_period (Scenario.nothing 150) boot)).
  vm_compute. reflexivity.
Defined.

(** C8 as worded fails: exactly 100 time-units after the last time stamp
    the phase does not flip. *)
Lemma C8_heartbeat_counterexample :
  ~ heartbeat_as_stated (P:=SpecPacket.Packet) (Rx:=SpecPacket.Inbound).
Proof.
  intros Hc.
  assert (Hd : 0 <= millis_check (Scenario.nothing 100)
                 - timeSinceLastPulse (P:=SpecPacket.Packet) boot < 2 ^ 31)
    by (vm_compute; split; [discriminate | reflexivity]).
  destruct (Hc boot (Scenario.nothing 100) Hd) as [_ Hc2].
  assert (Hle : _pulse_halfwidth_
                <= millis_check (Scenario.nothing 100)
                   - timeSinceLastPulse (P:=SpecPacket.Packet) boot)
    by (vm_compute; discriminate).
  specialize (Hc2 Hle). vm_compute in Hc2. discriminate Hc2.
Qed.

(* ===================================================================== *)
(** * The LED functions *)
(* ===================================================================== *)

(** The level of any line of an 8-bit port after one line is written. *)
Lemma bitRead_bitSet_line (v i j : Z) :
  0 <= i < 8 -> 0 <= j < 8 ->
  bitRead (bitSet v i) j = if j =? i then true else bitRead v j.
Proof.
  intros Hi Hj. rewrite bitRead_bitSet by assumption.
  rewrite (Z.eqb_sym j i). destruct (i =? j); reflexivity.
Qed.

Lemma bitRead_bitClear_line (v i j : Z) :
  0 <= i < 8 -> 0 <= j < 8 ->
  bitRead (bitClear v i) j = if j =? i then false else bitRead v j.
Proof.
  intros Hi Hj. rewrite bitRead_bitClear by assumption.
  rewrite (Z.eqb_sym j i). destruct (i =? j); reflexivity.
Qed.

Section Leds.

Context {P Rx : Type} `{LaunchDataPacket P Rx}.

(** X1.  [setErrorLedState(state)] and [setSafetyLedState(state)] drive
    their own line of PORTD to [state] with one write and leave the seven
    other lines and every global of the sketch as they were. *)
Theorem led_setters_write_one_line (state : bool) (s : Sketch P) (j : Z) :
  0 <= j < 8 ->
  let se := exec (setErrorLedState state) s in
  let ss := exec (setSafetyLedState state) s in
  bitRead (PORTD se) j
    = (if j =? _ErrorLedBit_ then state else bitRead (PORTD s) j)
  /\ bitRead (PORTD ss) j
    = (if j =? _SafetyLedBit_ then state else bitRead (PORTD s) j)
  /\ se = set_PORTD (PORTD se) s
  /\ ss = set_PORTD (PORTD ss) s
  /\ actions (setErrorLedState state) s = [EvPort (PORTD s) (PORTD se)]
  /\ actions (setSafetyLedState state) s = [EvPort (PORTD s) (PORTD ss)].
Proof.
  intros Hj.
  destruct state; cbn; unfold _ErrorLedBit_, _SafetyLedBit_;
    rewrite ?bitRead_bitSet_line, ?bitRead_bitClear_line by lia;
    repeat split; reflexivity.
Qed.

(** X2.  [blinkErrorLed()] is [setErrorLedState(pulse)] and
    [blinkSafetyLed()] is [setSafetyLedState(pulse)]: same state, same
    write. *)
Theorem blink_is_set_to_pulse (s : Sketch P) :
  blinkErrorLed s = setErrorLedState (pulse s) s
  /\ blinkSafetyLed s = setSafetyLedState (pulse s) s.
Proof.
  unfold blinkErrorLed, blinkSafetyLed, setErrorLedState, setSafetyLedState,
    bind, get.
  destruct (pulse s); cbn; split; reflexivity.
Qed.

End Leds.

(** X1 on the pad: the error LED goes on while the compressor runs, the
    compressor line stays on. *)
Lemma led_setters_witness :
  0 <= _CompressorBit_ < 8
  /\ bitRead (PORTD (exec (setErrorLedState true) Scenario.compressing))
             _CompressorBit_ = true.
Proof.
  assert (Hj : 0 <= _CompressorBit_ < 8)
    by (vm_compute; split; [discriminate | reflexivity]).
  split; [exact Hj|].
  rewrite (proj1 (led_setters_write_one_line true Scenario.compressing
                    _CompressorBit_ Hj)).
  vm_compute. reflexivity.
Defined.

(* ===================================================================== *)
(** * What a pass writes *)
(* ===================================================================== *)

Section Writes.

Context {P Rx : Type} `{LaunchDataPacket P Rx}.

(** Every level of PORTD in a pass, by branch. *)
Lemma port_levels_pass (e : Env Rx) (s : Sketch P) :
  port_levels (actions (loop e) s) =
    if timedOut e s then [port_error (pulse_after e s) (PORTD s)]
    else if fires e s then
      port_levels
        (firing_events (P:=P) (isPad1Selected (polled e s))
           (isPad2Selected (polled e s)) (PORTD s)
           (analog_fire e _Pressure1Analog_) (analog_fire e _Pressure2Analog_))
    else if launchSeen e s then []
    else [port_compressor (isCompressorOn (polled e s)) (PORTD s)].
Proof.
  rewrite actions_cases, port_levels_app, port_levels_prelude. cbn [app].
  destruct (timedOut e s); [|destruct (fires e s); [|destruct (launchSeen e s)]];
    reflexivity.
Qed.

Lemma port_levels_firing (sel1 sel2 : bool) (v q1 q2 x : Z) :
  In x (port_levels (firing_events (P:=P) sel1 sel2 v q1 q2)) ->
  x = port_safe v \/ x = port_pad1 sel1 v \/ x = port_pad2 sel1 sel2 v
  \/ x = port_closed1 sel1 sel2 v \/ x = port_closed sel1 sel2 v.
Proof.
  unfold firing_events.
  destruct sel1, sel2; cbn [app port_levels In]; intros Hin;
    repeat (destruct Hin as [<- | Hin]; [auto 10|]); contradiction.
Qed.

(** X3.  No pass of the loop ever changes line 0, 1, 2 or 7 of PORTD
    (the serial lines of the radio, the safety LED, the spare line): they
    keep their level through every write of the pass. *)
Theorem pass_leaves_other_lines (e : Env Rx) (s : Sketch P) (j v : Z) :
  In j [0; 1; 2; 7] ->
  In v (PORTD (exec (loop e) s) :: port_levels (actions (loop e) s)) ->
  bitRead v j = bitRead (PORTD s) j.
Proof.
  intros Hj Hv.
  assert (Hframe : forall x,
            x = PORTD s \/ (exists b, x = port_error b (PORTD s))
            \/ (exists b, x = port_compressor b (PORTD s))
            \/ (exists a b, x = port_safe (PORTD s)
                            \/ x = port_pad1 a (PORTD s)
                            \/ x = port_pad2 a b (PORTD s)
                            \/ x = port_closed1 a b (PORTD s)
                            \/ x = port_closed a b (PORTD s)) ->
            bitRead x j = bitRead (PORTD s) j).
  { intros x Hx. cbn [In] in Hj.
    destruct Hj as [<- | [<- | [<- | [<- | []]]]];
      destruct Hx as [-> | [[b ->] | [[b ->] | (a & b & Hx)]]];
      try reflexivity; try (port_bits; reflexivity);
      destruct Hx as [-> | [-> | [-> | [-> | ->]]]];
      destruct a, b; port_bits; reflexivity. }
  apply Hframe. destruct Hv as [<- | Hv].
  - rewrite exec_cases.
    destruct (timedOut e s); [|destruct (fires e s); [|destruct (launchSeen e s)]];
      cbn [after_pass PORTD]; eauto 12.
  - rewrite port_levels_pass in Hv.
    destruct (timedOut e s); [|destruct (fires e s); [|destruct (launchSeen e s)]].
    + destruct Hv as [<- | []]. eauto.
    + apply port_levels_firing in Hv. do 3 right. eauto.
    + destruct Hv.
    + destruct Hv as [<- | []]. eauto.
Qed.

(** X4.  A pass without timeout on which no launch is requested makes the
    compressor line mirror the compressor request of the packet, clears
    the launch latch and writes nothing else: both valve lines and both
    LED lines keep their level. *)
Theorem idle_pass_mirrors_compressor_request (e : Env Rx) (s : Sketch P) :
  launchSeenFalse e s = true ->
  let s' := exec (loop e) s in
  compressorOut (PORTD s') = isCompressorOn (polled e s)
  /\ wasRocketLaunched s' = false
  /\ pad1Valve (PORTD s') = pad1Valve (PORTD s)
  /\ pad2Valve (PORTD s') = pad2Valve (PORTD s)
  /\ errorLed (PORTD s') = errorLed (PORTD s)
  /\ safetyLed (PORTD s') = safetyLed (PORTD s)
  /\ port_levels (actions (loop e) s) = [PORTD s']
  /\ data s' = polled e s.
Proof.
  intros Hsf s'. subst s'. unfold exec, actions.
  rewrite (loop_idle e s Hsf). cbn [fst snd after_pass PORTD data
    wasRocketLaunched].
  rewrite port_levels_app, port_levels_prelude. cbn [app port_levels].
  destruct (isCompressorOn (polled e s));
    repeat split; port_bits; reflexivity.
Qed.

(** X5.  The compressor line is switched on only by a pass without
    timeout on which no launch is requested and the packet asks for the
    compressor: never in a timeout, never in a firing, never while a
    launch request is held. *)
Theorem compressor_starts_only_on_request (e : Env Rx) (s : Sketch P) :
  opens compressorOut (actions (loop e) s) ->
  launchSeenFalse e s = true /\ isCompressorOn (polled e s) = true.
Proof.
  rewrite actions_cases, opens_app. intros [Ho | Ho].
  { destruct (opens_prelude _ e s Ho). }
  destruct (pass_cases e s) as [Hb | [Hb | [[Hb Hl] | Hb]]].
  - rewrite Hb in Ho. apply opens_one in Ho. exfalso.
    destruct Ho as [Hoff Hon]. revert Hoff Hon. port_bits; congruence.
  - destruct (fires_seen e s Hb) as [Hs _].
    destruct (seen_not_timeout e s Hs) as [Ht _]. rewrite Ht, Hb in Ho.
    exfalso. destruct Ho as (b & a & Hin & Hoff & Hon).
    apply in_firing_events in Hin.
    destruct Hin as [[-> ->] | [(_ & -> & ->) | [(_ & -> & ->)
                     | [[-> ->] | [-> ->]]]]];
      revert Hoff Hon; port_bits; congruence.
  - destruct (seen_not_timeout e s Hb) as [Ht _].
    assert (Hf : fires e s = false)
      by (unfold fires; rewrite Hl; apply andb_false_r).
    rewrite Ht, Hf, Hb in Ho. destruct Ho as (b & a & [] & _).
  - split; [exact Hb|].
    destruct (seen_false_not_seen e s Hb) as (Ht & Hs & Hf).
    rewrite Ht, Hf, Hs in Ho. apply opens_one in Ho.
    destruct Ho as [Hoff Hon]. revert Hoff Hon.
    destruct (isCompressorOn (polled e s)); [reflexivity|].
    port_bits; congruence.
Qed.

(** X6.  A pass on which the launch request is seen while the latch is
    set writes nothing to PORTD: the early return of [launchRocket]
    leaves every output line, and the packet as polled, untouched. *)
Theorem debounced_pass_writes_nothing (e : Env Rx) (s : Sketch P) :
  launchSeen e s = true ->
  wasRocketLaunched s = true ->
  PORTD (exec (loop e) s) = PORTD s
  /\ port_levels (actions (loop e) s) = []
  /\ firings (actions (loop e) s) = 0%nat
  /\ data (exec (loop e) s) = polled e s
  /\ wasRocketLaunched (exec (loop e) s) = true.
Proof.
  intros Hs Hl. unfold exec, actions. rewrite (loop_debounced e s Hs Hl).
  cbn [fst snd after_pass PORTD data wasRocketLaunched].
  rewrite port_levels_prelude, firings_prelude. repeat split; reflexivity.
Qed.

(** X7.  A pass that runs the firing sequence ends with the compressor
    line and both valve lines off, whatever they were, and with every
    other line of PORTD as it was. *)
Theorem firing_pass_final_port (e : Env Rx) (s : Sketch P) (j : Z) :
  fires e s = true ->
  0 <= j < 8 ->
  bitRead (PORTD (exec (loop e) s)) j =
    if (j =? _CompressorBit_) || (j =? _Pad1LaunchBit_)
       || (j =? _Pad2LaunchBit_)
    then false else bitRead (PORTD s) j.
Proof.
  intros Hf Hj. unfold exec. rewrite (loop_fire e s Hf).
  cbn [fst snd after_pass PORTD].
  unfold port_closed, port_closed1, port_pad2, port_pad1, port_safe,
    _CompressorBit_, _Pad1LaunchBit_, _Pad2LaunchBit_.
  destruct (isPad1Selected (polled e s)), (isPad2Selected (polled e s));
    repeat first [ rewrite bitRead_bitSet_line by lia
                 | rewrite bitRead_bitClear_line by lia ];
    destruct (j =? 4), (j =? 6), (j =? 5); reflexivity.
Qed.

(** X8.  The compressor and a valve are never on together: from
    power-on, no level that PORTD takes during or after any pass has the
    compressor line on and a valve line on. *)
Theorem compressor_and_valve_never_both_on
    (e : Env Rx) (s : Sketch P) (v : Z) :
  reachable s ->
  In v (PORTD s :: port_levels (actions (loop e) s)) ->
  compressorOut v && (pad1Valve v || pad2Valve v) = false.
Proof.
  intros Hr Hv. destruct (reachable_valves_closed s Hr) as [H1 H2].
  destruct Hv as [<- | Hv].
  { rewrite H1, H2. apply andb_false_r. }
  rewrite port_levels_pass in Hv.
  destruct (timedOut e s); [|destruct (fires e s); [|destruct (launchSeen e s)]].
  - destruct Hv as [<- | []]. revert H1 H2.
    port_bits; intros Ha Hb; rewrite ?Ha, ?Hb, ?andb_false_r; reflexivity.
  - apply port_levels_firing in Hv.
    destruct (isPad1Selected (polled e s)), (isPad2Selected (polled e s));
      destruct Hv as [-> | [-> | [-> | [-> | ->]]]];
      port_bits; reflexivity.
  - destruct Hv.
  - destruct Hv as [<- | []]. revert H1 H2.
    port_bits; intros Ha Hb; rewrite ?Ha, ?Hb, ?andb_false_r; reflexivity.
Qed.

End Writes.

(** X3 on the pad: the safety LED line through the first firing. *)
Lemma pass_leaves_other_lines_witness :
  In 2 [0; 1; 2; 7]
  /\ In 64 (PORTD (exec (loop (Scenario.launch_pad1 0)) boot)
            :: port_levels (actions (loop (Scenario.launch_pad1 0)) boot))
  /\ bitRead 64 2 = bitRead (PORTD (P:=SpecPacket.Packet) boot) 2.
Proof.
  assert (Hj : In 2 [0; 1; 2; 7]) by (cbn; auto).
  assert (Hv : In 64 (PORTD (exec (loop (Scenario.launch_pad1 0)) boot)
                 :: port_levels (actions (loop (Scenario.launch_pad1 0)) boot)))
    by (vm_compute; auto).
  split; [exact Hj|]. split; [exact Hv|].
  exact (pass_leaves_other_lines (Scenario.launch_pad1 0) boot 2 64 Hj Hv).
Defined.

(** X4 on the pad: the master asks for the compressor. *)
Lemma idle_pass_witness :
  launchSeenFalse Scenario.compressor_request boot = true
  /\ compressorOut (PORTD (exec (loop Scenario.compressor_request) boot))
     = true.
Proof.
  assert (Hsf : launchSeenFalse Scenario.compressor_request boot = true)
    by (vm_compute; reflexivity).
  split; [exact Hsf|].
  rewrite (proj1 (idle_pass_mirrors_compressor_request
                    Scenario.compressor_request boot Hsf)).
  vm_compute. reflexivity.
Defined.

(** X5 on the pad: the pass that starts the compressor. *)
Lemma compressor_starts_witness :
  opens compressorOut (actions (loop Scenario.compressor_request) boot)
  /\ launchSeenFalse Scenario.compressor_request boot = true.
Proof.
  assert (Ho : opens compressorOut
                 (actions (loop Scenario.compressor_request) boot)).
  { exists 0, 16. split; [|split; reflexivity].
    do 3 right. left. reflexivity. }
  split; [exact Ho|].
  exact (proj1 (compressor_starts_only_on_request
                  Scenario.compressor_request boot Ho)).
Defined.

(** X6 on the pad: the request held on the pass after the firing. *)
Lemma debounced_pass_witness :
  launchSeen (Scenario.nothing 10)
             (exec (loop (Scenario.launch_pad1 0)) boot) = true
  /\ wasRocketLaunched (exec (loop (Scenario.launch_pad1 0)) boot) = true
  /\ port_levels (actions (loop (Scenario.nothing 10))
                    (exec (loop (Scenario.launch_pad1 0)) boot)) = [].
Proof.
  assert (Hs : launchSeen (Scenario.nothing 10)
                 (exec (loop (Scenario.launch_pad1 0)) boot) = true)
    by (vm_compute; reflexivity).
  assert (Hl : wasRocketLaunched (exec (loop (Scenario.launch_pad1 0)) boot)
               = true) by (vm_compute; reflexivity).
  split; [exact Hs|]. split; [exact Hl|].
  exact (proj1 (proj2 (debounced_pass_writes_nothing (Scenario.nothing 10)
                         (exec (loop (Scenario.launch_pad1 0)) boot) Hs Hl))).
Defined.

(** X7 on the pad: the compressor runs, then a launch is requested. *)
Lemma firing_pass_final_port_witness :
  fires (Scenario.launch_both 10) Scenario.compressing = true
  /\ 0 <= _CompressorBit_ < 8
  /\ bitRead (PORTD (exec (loop (Scenario.launch_both 10))
                       Scenario.compressing)) _CompressorBit_ = false.
Proof.
  assert (Hf : fires (Scenario.launch_both 10) Scenario.compressing = true)
    by (vm_compute; reflexivity).
  assert (Hj : 0 <= _CompressorBit_ < 8)
    by (vm_compute; split; [discriminate | reflexivity]).
  split; [exact Hf|]. split; [exact Hj|].
  rewrite (firing_pass_final_port (Scenario.launch_both 10)
             Scenario.compressing _CompressorBit_ Hf Hj).
  reflexivity.
Defined.

(** X8 on the pad: the level of PORTD during the hold of a firing that
    interrupts the compressor. *)
Lemma compressor_and_valve_witness :
  reachable Scenario.compressing
  /\ In 96 (PORTD Scenario.compressing
            :: port_levels (actions (loop (Scenario.launch_both 10))
                              Scenario.compressing))
  /\ compressorOut 96 && (pad1Valve 96 || pad2Valve 96) = false.
Proof.
  assert (Hr : reachable Scenario.compressing)
    by (exists [Scenario.compressor_request]; reflexivity).
  assert (Hv : In 96 (PORTD Scenario.compressing
                 :: port_levels (actions (loop (Scenario.launch_both 10))
                                   Scenario.compressing)))
    by (vm_compute; auto).
  split; [exact Hr|]. split; [exact Hv|].
  exact (compressor_and_valve_never_both_on (Scenario.launch_both 10)
           Scenario.compressing 96 Hr Hv).
Defined.

(* ===================================================================== *)
(** * Runs of passes *)
(* ===================================================================== *)

Section Runs.

Context {P Rx : Type} `{LaunchDataPacket P Rx}.

Lemma telemetry_app (t1 t2 : list (Event P)) :
  telemetry (t1 ++ t2) = telemetry t1 ++ telemetry t2.
Proof.
  induction t1 as [|ev t1 IH]; simpl; [reflexivity|].
  destruct ev; simpl; rewrite ?IH; reflexivity.
Qed.

Lemma telemetry_pass (e : Env Rx) (s : Sketch P) :
  telemetry (actions (loop e) s) = if rising e s then [sampled e s] else [].
Proof.
  rewrite actions_cases. unfold prelude, firing_events.
  destruct (rising e s), (timedOut e s), (fires e s), (launchSeen e s),
    (isPad1Selected (polled e s)), (isPad2Selected (polled e s));
    reflexivity.
Qed.

Lemma compressor_after_pass (e : Env Rx) (s : Sketch P) :
  launchSeenFalse e s = false ->
  compressorOut (PORTD s) = false ->
  compressorOut (PORTD (exec (loop e) s)) = false.
Proof.
  intros Hsf Hoff. rewrite exec_cases.
  destruct (timedOut e s) eqn:Ht; [|destruct (fires e s) eqn:Hf;
    [|destruct (launchSeen e s) eqn:Hs]]; cbn [after_pass PORTD].
  - revert Hoff. port_bits; auto.
  - port_bits; reflexivity.
  - exact Hoff.
  - unfold launchSeenFalse, launchSeen in *. rewrite Ht in *.
    destruct (isMasterLaunchSet (polled e s)); discriminate.
Qed.

Lemma compressor_off_run (es : list (Env Rx)) (s : Sketch P) :
  compressorOut (PORTD s) = false ->
  none_seen_false es s = true ->
  compressorOut (PORTD (run es s)) = false.
Proof.
  revert s. induction es as [|e es IH]; intros s Hoff Hn; [exact Hoff|].
  simpl in Hn. apply andb_prop in Hn. destruct Hn as [Hnf Hn].
  apply negb_true_iff in Hnf. simpl. apply IH; [|exact Hn].
  apply compressor_after_pass; assumption.
Qed.

(** X9.  A firing switches the compressor off, and it stays off for as
    long as no pass observes the launch request false: neither a held
    request nor a loss of communication lets it start again. *)
Theorem compressor_stays_off_after_firing
    (s0 : Sketch P) (e0 : Env Rx) (es : list (Env Rx)) :
  fires e0 s0 = true ->
  none_seen_false es (exec (loop e0) s0) = true ->
  compressorOut (PORTD (exec (loop e0) s0)) = false
  /\ compressorOut (PORTD (run es (exec (loop e0) s0))) = false.
Proof.
  intros Hf Hn.
  assert (Hoff : compressorOut (PORTD (exec (loop e0) s0)) = false).
  { rewrite (exec_fire e0 s0 Hf). cbn [after_pass PORTD].
    port_bits; reflexivity. }
  split; [exact Hoff|]. apply compressor_off_run; assumption.
Qed.

(** X10.  The launch latch tracks the launch request: after a pass
    without timeout it equals the request flag that the pass read from
    the packet; a pass with a timeout leaves it as it was. *)
Theorem latch_tracks_launch_request (e : Env Rx) (s : Sketch P) :
  wasRocketLaunched (exec (loop e) s) =
    if timedOut e s then wasRocketLaunched s
    else isMasterLaunchSet (polled e s).
Proof.
  rewrite latch_after. unfold launchSeen.
  destruct (timedOut e s); [reflexivity|].
  destruct (isMasterLaunchSet (polled e s)); reflexivity.
Qed.

(** X11.  Telemetry goes out at most on every other pass: in any run of
    n passes at most (n + 1) / 2 packets are sent, and at most n / 2 if
    the heartbeat phase is on when the run begins. *)
Theorem telemetry_at_most_every_other_pass
    (es : list (Env Rx)) (s : Sketch P) :
  (2 * length (telemetry (run_actions es s))
   + (if pulse s then 1 else 0) <= length es + 1)%nat.
Proof.
  revert s. induction es as [|e es IH]; intros s.
  - cbn. destruct (pulse s); lia.
  - rewrite run_actions_cons, telemetry_app, length_app, telemetry_pass.
    specialize (IH (exec (loop e) s)).
    rewrite pulse_after_pass in IH. unfold pulse_after, rising in *.
    destruct (flips e s), (pulse s); cbn [xorb andb negb length] in *; lia.
Qed.

(** X12.  While the clock stays within the half-period of the last time
    stamp, the heartbeat is still: over any run of passes whose elapsed
    time is at most 100, the phase and the time stamp do not change and
    no telemetry is sent. *)
Theorem heartbeat_still_within_half_period
    (es : list (Env Rx)) (s : Sketch P) :
  Forall (fun e => to_long (millis_check e - timeSinceLastPulse s)
                   <= _pulse_halfwidth_) es ->
  pulse (run es s) = pulse s
  /\ timeSinceLastPulse (run es s) = timeSinceLastPulse s
  /\ telemetry (run_actions es s) = [].
Proof.
  revert s. induction es as [|e es IH]; intros s Hall; [auto|].
  inversion Hall as [|e' es' He Hrest]; subst.
  assert (Hflip : flips e s = false).
  { unfold flips, pulseTime. rewrite pulseTime_of_wrap.
    apply Z.ltb_ge. exact He. }
  assert (Hp : pulse (exec (loop e) s) = pulse s).
  { rewrite pulse_after_pass. unfold pulse_after. rewrite Hflip. reflexivity. }
  assert (Ht : timeSinceLastPulse (exec (loop e) s) = timeSinceLastPulse s).
  { rewrite stamp_after_pass. unfold stamp_after. rewrite Hflip. reflexivity. }
  rewrite <- Ht in Hrest. destruct (IH _ Hrest) as (IH1 & IH2 & IH3).
  simpl run. rewrite run_actions_cons, telemetry_app, telemetry_pass, IH3.
  unfold rising. rewrite Hflip. cbn [andb app].
  repeat split; congruence.
Qed.

(** The time stamp that a flip at clock [t] stores stands for [t] in the
    elapsed time of line 247, also when [t] does not fit a [long]. *)
Lemma elapsed_since_stamp (t d : Z) :
  0 <= d < 2 ^ 31 ->
  to_long (t + d - to_long (to_ulong t)) = d.
Proof.
  intros Hd. unfold to_long, to_ulong.
  change (2 ^ 31) with 2147483648 in *. change (2 ^ 32) with 4294967296.
  Z.div_mod_to_equations. lia.
Qed.

(** X13.  The heartbeat survives the roll-over of [millis()]: if the
    time stamp was taken at clock [t] and the pass runs [d] time-units
    later, [d] below 2^31, then the phase flips iff [d > 100], wherever
    [t] and [t + d] lie with respect to the 32-bit wrap of the clock. *)
Theorem heartbeat_survives_clock_rollover
    (e : Env Rx) (s : Sketch P) (t d : Z) :
  timeSinceLastPulse s = to_long (to_ulong t) ->
  millis_check e = t + d ->
  0 <= d < 2 ^ 31 ->
  pulseTime e s = d
  /\ (pulse (exec (loop e) s) = negb (pulse s) <-> _pulse_halfwidth_ < d).
Proof.
  intros Hstamp Hnow Hd.
  assert (Hpt : pulseTime e s = d).
  { unfold pulseTime. rewrite pulseTime_of_wrap, Hstamp, Hnow.
    apply elapsed_since_stamp. exact Hd. }
  split; [exact Hpt|].
  rewrite pulse_after_pass. unfold pulse_after, flips. rewrite Hpt.
  destruct (Z.ltb_spec _pulse_halfwidth_ d); destruct (pulse s);
    cbn [xorb negb]; split; intros; try reflexivity; try discriminate; lia.
Qed.

End Runs.

(** X9 on the pad: fire, hold the request, lose the master. *)
Lemma compressor_stays_off_witness :
  fires (Scenario.launch_pad1 0) boot = true
  /\ none_seen_false [Scenario.nothing 10; Scenario.silence]
       (exec (loop (Scenario.launch_pad1 0)) boot) = true
  /\ compressorOut
       (PORTD (run [Scenario.nothing 10; Scenario.silence]
                 (exec (loop (Scenario.launch_pad1 0)) boot))) = false.
Proof.
  assert (Hf : fires (Scenario.launch_pad1 0) boot = true)
    by (vm_compute; reflexivity).
  assert (Hn : none_seen_false [Scenario.nothing 10; Scenario.silence]
                 (exec (loop (Scenario.launch_pad1 0)) boot) = true)
    by (vm_compute; reflexivity).
  split; [exact Hf|]. split; [exact Hn|].
  exact (proj2 (compressor_stays_off_after_firing boot
                  (Scenario.launch_pad1 0)
                  [Scenario.nothing 10; Scenario.silence] Hf Hn)).
Defined.

(** X12 at power-on: two passes within the first 100 time-units. *)
Lemma heartbeat_still_witness :
  Forall (fun e => to_long (millis_check e
                            - timeSinceLastPulse (P:=SpecPacket.Packet) boot)
                   <= _pulse_halfwidth_)
         [Scenario.no_request 50; Scenario.no_request 100]
  /\ telemetry (run_actions
                  [Scenario.no_request 50; Scenario.no_request 100] boot)
     = [].
Proof.
  assert (Hall : Forall
            (fun e => to_long (millis_check e
                               - timeSinceLastPulse (P:=SpecPacket.Packet) boot)
                      <= _pulse_halfwidth_)
            [Scenario.no_request 50; Scenario.no_request 100]).
  { repeat constructor; vm_compute; discriminate. }
  split; [exact Hall|].
  exact (proj2 (proj2 (heartbeat_still_within_half_period
                         [Scenario.no_request 50; Scenario.no_request 100]
                         boot Hall))).
Defined.

(** X13 on the pad: the last flip came 50 time-units before the clock
    wrapped, the pass runs 70 time-units after the wrap. *)
Lemma heartbeat_rollover_witness :
  let s := run [Scenario.nothing 2147483647; Scenario.nothing 4294967246]
               boot in
  let e := Scenario.nothing 4294967366 in
  timeSinceLastPulse s = to_long (to_ulong 4294967246)
  /\ millis_check e = 4294967246 + 120
  /\ 0 <= 120 < 2 ^ 31
  /\ pulse (exec (loop e) s) = negb (pulse s).
Proof.
  intros s e.
  assert (Hstamp : timeSinceLastPulse s = to_long (to_ulong 4294967246))
    by (vm_compute; reflexivity).
  assert (Hnow : millis_check e = 4294967246 + 120)
    by (vm_compute; reflexivity).
  assert (Hd : 0 <= 120 < 2 ^ 31)
    by (vm_compute; split; [discriminate | reflexivity]).
  split; [exact Hstamp|]. split; [exact Hnow|]. split; [exact Hd|].
  apply (proj2 (heartbeat_survives_clock_rollover e s 4294967246 120
                  Hstamp Hnow Hd)).
  vm_compute. reflexivity.
Defined.

(* ===================================================================== *)
(** * The timeout branch *)
(* ===================================================================== *)

Section TimeoutBranch.

Context {P Rx : Type} `{LaunchDataPacket P Rx}.

(** X14.  A pass on which the watchdog reports a timeout makes exactly
    one write to PORTD, after the samples, the telemetry and the poll of
    the radio, and that write sets the error LED line to the heartbeat
    phase and leaves each of the seven other lines at the level it had:
    no valve line, no compressor line, no safety LED.  The pass runs no
    firing sequence whatever the launch request says, leaves the launch
    latch as it was, and leaves the packet with the three clearing calls
    applied to what was polled. *)
Theorem timeout_pass_writes_error_led_only
    (e : Env Rx) (s : Sketch P) (j : Z) :
  timedOut e s = true ->
  0 <= j < 8 ->
  let s' := exec (loop e) s in
  actions (loop e) s = prelude e s ++ [EvPort (PORTD s) (PORTD s')]
  /\ port_levels (actions (loop e) s) = [PORTD s']
  /\ bitRead (PORTD s') j
     = (if j =? _ErrorLedBit_ then pulse s' else bitRead (PORTD s) j)
  /\ firings (actions (loop e) s) = 0%nat
  /\ wasRocketLaunched s' = wasRocketLaunched s
  /\ data s' = cleared (polled e s).
Proof.
  intros Ht Hj s'. subst s'. unfold exec, actions.
  rewrite (loop_timeout e s Ht).
  cbn [fst snd after_pass PORTD pulse wasRocketLaunched data].
  rewrite port_levels_app, port_levels_prelude, firings_app, firings_prelude.
  cbn [app port_levels].
  repeat split.
  unfold port_error, _ErrorLedBit_.
  destruct (pulse_after e s);
    [rewrite bitRead_bitSet_line by lia | rewrite bitRead_bitClear_line by lia];
    reflexivity.
Qed.

End TimeoutBranch.

(** X14 on the pad: the master falls silent while the compressor runs;
    the one write of the pass takes PORTD from 16 to 24. *)
Lemma timeout_pass_witness :
  timedOut Scenario.silence Scenario.compressing = true
  /\ 0 <= _SafetyLedBit_ < 8
  /\ port_levels (actions (loop Scenario.silence) Scenario.compressing)
     = [24].
Proof.
  assert (Ht : timedOut Scenario.silence Scenario.compressing = true)
    by (vm_compute; reflexivity).
  assert (Hj : 0 <= _SafetyLedBit_ < 8)
    by (vm_compute; split; [discriminate | reflexivity]).
  split; [exact Ht|]. split; [exact Hj|].
  rewrite (proj1 (proj2 (timeout_pass_writes_error_led_only Scenario.silence
                           Scenario.compressing _SafetyLedBit_ Ht Hj))).
  vm_compute. reflexivity.
Defined.
